(** * PropertiFinder: the property-listings coordinator

    A shallow embedding of [PropertyListingsComponent]
    (components/property-listings.tsx): the range-descriptor parser
    [parseAreaRange], the derived visible set [filteredProperties], the
    selection toggle, the view-mode effect, the popup placement of
    [handleMarkerClick] and the add-property workflow.

    Conventions of the embedding.
    - A JavaScript string is a Rocq [string] read as a sequence of code
      units below 256.
    - A JavaScript number is a [num]: NaN, the two infinities, or a finite
      value given by the rational it denotes; the two zeros are one.
      The parsers round what they read to binary64 ([toDouble]).  The
      program's only arithmetic on numbers is the difference of two
      prices, of which the sort reads the sign; [sub] keeps the exact
      difference, whose sign is the sign of the rounded one.
    - Pixel quantities read from the DOM (clientX, innerWidth,
      offsetHeight, ...) are integers, [Z].
    - React state is one record [State]; every [setX] is a field update,
      an event handler is a function [State -> State], and an effect runs
      after the handler when one of its dependencies changed. *)

From Stdlib Require Import List String Ascii Bool Arith ZArith QArith Lia.
From Stdlib Require Import Sorted Permutation DecimalString DecimalNat DecimalFacts.
Import ListNotations.

Local Open Scope string_scope.
Local Open Scope Z_scope.

(** ** JavaScript numbers *)

Inductive num : Type :=
| NaN
| NInf
| Fin (q : Q)
| PInf.

Definition ofZ (z : Z) : num := Fin (inject_Z z).

(** Number::lessThan of ECMAScript: [None] is the answer "undefined" that
    a NaN operand produces. *)
Definition lessThan (x y : num) : option bool :=
  match x, y with
  | NaN, _ | _, NaN => None
  | PInf, _ => Some false
  | _, PInf => Some true
  | _, NInf => Some false
  | NInf, _ => Some true
  | Fin a, Fin b => Some (match Qcompare a b with Lt => true | _ => false end)
  end.

(** [x < y], [x > y], [x <= y], [x >= y] as the relational operators
    derive them from lessThan. *)
Definition lt (x y : num) : bool :=
  match lessThan x y with Some b => b | None => false end.

Definition gt (x y : num) : bool := lt y x.

Definition le (x y : num) : bool :=
  match lessThan y x with Some b => negb b | None => false end.

Definition ge (x y : num) : bool :=
  match lessThan x y with Some b => negb b | None => false end.

(** [x === y] on numbers. *)
Definition strictEq (x y : num) : bool :=
  match x, y with
  | NInf, NInf | PInf, PInf => true
  | Fin a, Fin b => Qeq_bool a b
  | _, _ => false
  end.

(** [x - y]. *)
Definition sub (x y : num) : num :=
  match x, y with
  | NaN, _ | _, NaN => NaN
  | PInf, PInf | NInf, NInf => NaN
  | PInf, _ | _, NInf => PInf
  | NInf, _ | _, PInf => NInf
  | Fin a, Fin b => Fin (a - b)
  end.

Definition neg (x : num) : num :=
  match x with
  | NaN => NaN
  | NInf => PInf
  | PInf => NInf
  | Fin a => Fin (- a)
  end.

Definition isNaN (x : num) : bool :=
  match x with NaN => true | _ => false end.

(** The integer nearest to n/d for d > 0, ties to the even one. *)
Definition roundHalfEven (n d : Z) : Z :=
  let q := n / d in
  let r := n mod d in
  match 2 * r ?= d with
  | Lt => q
  | Gt => q + 1
  | Eq => if Z.even q then q else q + 1
  end.

(** The Number value of a real: the nearest binary64 value, ties to the
    even significand, and an infinity from 2^1024 on.  With 2^e the
    largest power of two not above |v|, the values near v are the
    multiples of 2^p for p = max (e - 52) (-1074).  Integers up to 2^53
    are values themselves. *)
Definition toDouble (v : Q) : num :=
  let n := Qnum v in
  let d := Zpos (Qden v) in
  if (d =? 1) && (Z.abs n <=? 2 ^ 53) then Fin v
  else if n =? 0 then ofZ 0
  else
    let a := Z.abs n in
    let e0 := Z.log2 a - Z.log2 d in
    let below := if 0 <=? e0 then a <? d * 2 ^ e0 else a * 2 ^ (- e0) <? d in
    let e := if below then e0 - 1 else e0 in
    let p := Z.max (e - 52) (-1074) in
    let m := if 0 <=? p then roundHalfEven a (d * 2 ^ p)
             else roundHalfEven (a * 2 ^ (- p)) d in
    let s := if n <? 0 then -1 else 1 in
    if (0 <=? p) && (2 ^ 1024 <=? m * 2 ^ p)
    then (if n <? 0 then NInf else PInf)
    else Fin (if 0 <=? p then inject_Z (s * m * 2 ^ p)
              else Qred (Qmake (s * m) (Z.to_pos (2 ^ (- p))))).

(** ToNumber on a value that may be [undefined] ([None]). *)
Definition toNumber (v : option num) : num :=
  match v with Some n => n | None => NaN end.

(** ** JavaScript strings *)

Definition code (c : ascii) : Z := Z.of_N (N_of_ascii c).

(** WhiteSpace and LineTerminator code units below 256: TAB, LF, VT, FF,
    CR, SP and NBSP. *)
Definition isWhiteSpace (c : ascii) : bool :=
  let n := code c in
  ((9 <=? n) && (n <=? 13)) || (n =? 32) || (n =? 160).

Fixpoint trimStart (s : string) : string :=
  match s with
  | String c s' => if isWhiteSpace c then trimStart s' else s
  | EmptyString => EmptyString
  end.

Definition isBlank (s : string) : bool :=
  match trimStart s with EmptyString => true | _ => false end.

(** [s.startsWith(p)], returning what follows the prefix. *)
Fixpoint stripPrefix (p s : string) : option string :=
  match p, s with
  | EmptyString, _ => Some s
  | String a p', String b s' => if Ascii.eqb a b then stripPrefix p' s' else None
  | String _ _, EmptyString => None
  end.

(** [s.includes(sub)]. *)
Fixpoint includes (s sub : string) : bool :=
  match stripPrefix sub s with
  | Some _ => true
  | None => match s with
            | String _ s' => includes s' sub
            | EmptyString => false
            end
  end.

(** [s.split(sep)] for a separator of one code unit; the result is never
    empty. *)
Fixpoint split (sep : ascii) (s : string) : list string :=
  match s with
  | EmptyString => [EmptyString]
  | String c s' =>
      if Ascii.eqb c sep then EmptyString :: split sep s'
      else match split sep s' with
           | h :: t => String c h :: t
           | [] => [String c EmptyString]
           end
  end.

(** [s.toLowerCase()] on code units below 256: A-Z and the accented
    capitals U+00C0-U+00DE (without the multiplication sign U+00D7) move
    up by 32. *)
Definition toLowerCaseUnit (c : ascii) : ascii :=
  let n := code c in
  if ((65 <=? n) && (n <=? 90))
     || ((192 <=? n) && (n <=? 222) && negb (n =? 215))
  then ascii_of_N (Z.to_N (n + 32)) else c.

Fixpoint toLowerCase (s : string) : string :=
  match s with
  | EmptyString => EmptyString
  | String c s' => String (toLowerCaseUnit c) (toLowerCase s')
  end.

(** [n.toString()] for a non-negative integer: its decimal numeral. *)
Definition toString (n : nat) : string :=
  NilEmpty.string_of_uint (Nat.to_uint n).

(** The value of a digit in the given radix: 0-9, then a-z or A-Z for
    10-35. *)
Definition digitValue (radix : Z) (c : ascii) : option Z :=
  let n := code c in
  let v := if (48 <=? n) && (n <=? 57) then n - 48
           else if (97 <=? n) && (n <=? 122) then n - 87
           else if (65 <=? n) && (n <=? 90) then n - 55
           else radix in
  if v <? radix then Some v else None.

(** The longest prefix of radix digits: its value, its length and what
    follows it. *)
Fixpoint digits (radix : Z) (s : string) (acc : Z) (len : nat)
  : Z * nat * string :=
  match s with
  | String c s' =>
      match digitValue radix c with
      | Some d => digits radix s' (radix * acc + d) (S len)
      | None => (acc, len, s)
      end
  | EmptyString => (acc, len, s)
  end.

(** A leading sign: the factor and the rest. *)
Definition stripSign (s : string) : Z * string :=
  match s with
  | String "-" s' => (-1, s')
  | String "+" s' => (1, s')
  | _ => (1, s)
  end.

(** [parseInt(s)] with no radix argument: leading white space, a sign, a
    0x or 0X prefix for radix 16, then the longest run of digits; NaN
    when that run is empty. *)
Definition parseInt (s : string) : num :=
  let '(sign, s1) := stripSign (trimStart s) in
  let '(radix, s2) :=
    match s1 with
    | String "0" (String "x" r) | String "0" (String "X" r) => (16, r)
    | _ => (10, s1)
    end in
  match digits radix s2 0 0 with
  | (_, O, _) => NaN
  | (m, S _, _) => toDouble (inject_Z (sign * m))
  end.

(** StrUnsignedDecimalLiteral: Infinity, or digits with an optional
    fraction and an optional exponent.  Returns the value and the rest,
    [None] when no literal starts here. *)
Definition strUnsignedDecimalLiteral (s : string) : option (num * string) :=
  match stripPrefix "Infinity" s with
  | Some r => Some (PInf, r)
  | None =>
      let '(ip, ni, r1) := digits 10 s 0 0 in
      let '(m, nf, r2, dot) :=
        match r1 with
        | String "." r => let '(m, nf, r2) := digits 10 r ip 0 in (m, nf, r2, true)
        | _ => (ip, O, r1, false)
        end in
      if (0 <? Z.of_nat ni) || (dot && (0 <? Z.of_nat nf)) then
        let '(e, r3) :=
          match r2 with
          | String "e" r | String "E" r =>
              let '(sg, r') := stripSign r in
              match digits 10 r' 0 0 with
              | (_, O, _) => (0, r2)
              | (ev, S _, r3) => (sg * ev, r3)
              end
          | _ => (0, r2)
          end in
        let scale := e - Z.of_nat nf in
        let v := if 0 <=? scale then inject_Z (m * 10 ^ scale)
                 else Qmake m (Z.to_pos (10 ^ (- scale))) in
        Some (toDouble v, r3)
      else None
  end.

(** NonDecimalIntegerLiteral: 0b, 0o or 0x (either case) and at least one
    digit of that radix; no sign. *)
Definition nonDecimalPrefix (s : string) : option (Z * string) :=
  match s with
  | String "0" (String "b" r) | String "0" (String "B" r) => Some (2, r)
  | String "0" (String "o" r) | String "0" (String "O" r) => Some (8, r)
  | String "0" (String "x" r) | String "0" (String "X" r) => Some (16, r)
  | _ => None
  end.

(** [Number(s)], that is StringToNumber: white space around a numeric
    literal; the empty or blank string is 0; anything else is NaN. *)
Definition Number (s : string) : num :=
  let t := trimStart s in
  match t with
  | EmptyString => ofZ 0
  | _ =>
      match nonDecimalPrefix t with
      | Some (radix, r) =>
          match digits radix r 0 0 with
          | (_, O, _) => NaN
          | (m, S _, rest) => if isBlank rest then toDouble (inject_Z m) else NaN
          end
      | None =>
          let '(sign, u) := stripSign t in
          match strUnsignedDecimalLiteral u with
          | Some (v, rest) =>
              if isBlank rest then (if sign <? 0 then neg v else v) else NaN
          | None => NaN
          end
      end
  end.


(** ** Array.prototype.sort

    ECMAScript asks for a stable sort: with a consistent comparator the
    result is the one permutation that is ordered by the comparator and
    keeps elements that compare equal in their input order, so any stable
    algorithm is a model ([sort_unique] below).  With an inconsistent
    comparator the order is implementation-defined; a NaN price is the
    only way the comparators of this program become inconsistent.  On a
    collection with a NaN price the insertion sort below and an engine
    both return a rearrangement of the input, but they need not return
    the same one, so what is stated about the order beyond that carries
    the hypothesis that the prices are numbers. *)

Section ArraySort.
Context {A : Type}.
Variable comparefn : A -> A -> num.

(** SortCompare: a NaN answer of the comparator counts as 0. *)
Definition sortCompare (a b : A) : num :=
  let v := comparefn a b in
  if isNaN v then ofZ 0 else v.

(** [a] precedes every element of [l] in the input; it moves right past
    the elements it is strictly greater than. *)
Fixpoint insert (a : A) (l : list A) : list A :=
  match l with
  | [] => [a]
  | b :: l' =>
      if gt (sortCompare a b) (ofZ 0) then b :: insert a l' else a :: l
  end.

Fixpoint sort (l : list A) : list A :=
  match l with
  | [] => []
  | a :: l' => insert a (sort l')
  end.
End ArraySort.

(** ** Data model *)

Record LatLng : Type := { lat : num; lng : num }.

(** Modelled from the spec: the [Property] type is declared in
    '@/lib/data', which is not part of the sources at hand.  The fields
    are the ones the component reads (title, description, location,
    price, type, buildingArea, landArea, id) and the coordinates the spec
    lists for the map; every numeric field is a JavaScript number.
    [PropertyData] is [Omit<Property, 'id'>], and a [Property] is an
    identifier spread together with such a payload. *)
Record PropertyData : Type := {
  title : string;
  description : string;
  location : string;
  price : num;
  type : string;
  buildingArea : num;
  landArea : num;
  coordinates : LatLng
}.

Record Property : Type := {
  id : string;
  data :> PropertyData
}.

(** [FilterState] of './property-search-filter', with the five fields the
    component initialises, and [Partial<FilterState>]. *)
Module FilterState.
Record t : Type := {
  searchTerm : string;
  propertyType : string;
  priceSort : string;
  buildingArea : string;
  landArea : string
}.

Record partial : Type := {
  searchTerm' : option string;
  propertyType' : option string;
  priceSort' : option string;
  buildingArea' : option string;
  landArea' : option string
}.

Definition over (old : string) (new : option string) : string :=
  match new with Some v => v | None => old end.

(** [{ ...prev, ...newFilters }] *)
Definition spread (prev : t) (newFilters : partial) : t :=
  {| searchTerm := over (searchTerm prev) (searchTerm' newFilters);
     propertyType := over (propertyType prev) (propertyType' newFilters);
     priceSort := over (priceSort prev) (priceSort' newFilters);
     buildingArea := over (buildingArea prev) (buildingArea' newFilters);
     landArea := over (landArea prev) (landArea' newFilters) |}.

(** The state the component starts from: every filter at its sentinel. *)
Definition initial : t :=
  {| searchTerm := "";
     propertyType := "Semua";
     priceSort := "Default";
     buildingArea := "Semua";
     landArea := "Semua" |}.

Definition nothing : partial :=
  {| searchTerm' := None; propertyType' := None; priceSort' := None;
     buildingArea' := None; landArea' := None |}.
End FilterState.

Inductive ViewMode : Type := view_list | view_map.

Definition ViewMode_eqb (a b : ViewMode) : bool :=
  match a, b with
  | view_list, view_list | view_map, view_map => true
  | _, _ => false
  end.

Definition ViewMode_string (m : ViewMode) : string :=
  match m with view_list => "list" | view_map => "map" end.

Record Position : Type := { x : Z; y : Z }.

Record State : Type := {
  properties : list Property;
  hoveredPropertyId : option string;
  selectedPropertyIds : list string;
  (** searchParams.get('view') *)
  searchParams_view : option string;
  isAddDrawerOpen : bool;
  selectedPropertyForCard : option Property;
  newPropertyCoords : option LatLng;
  cardPosition : option Position;
  filters : FilterState.t
}.

Definition setProperties (v : list Property) (st : State) : State :=
  {| properties := v;
     hoveredPropertyId := hoveredPropertyId st;
     selectedPropertyIds := selectedPropertyIds st;
     searchParams_view := searchParams_view st;
     isAddDrawerOpen := isAddDrawerOpen st;
     selectedPropertyForCard := selectedPropertyForCard st;
     newPropertyCoords := newPropertyCoords st;
     cardPosition := cardPosition st;
     filters := filters st |}.

Definition setHoveredPropertyId (v : option string) (st : State) : State :=
  {| properties := properties st;
     hoveredPropertyId := v;
     selectedPropertyIds := selectedPropertyIds st;
     searchParams_view := searchParams_view st;
     isAddDrawerOpen := isAddDrawerOpen st;
     selectedPropertyForCard := selectedPropertyForCard st;
     newPropertyCoords := newPropertyCoords st;
     cardPosition := cardPosition st;
     filters := filters st |}.

Definition setSelectedPropertyIds (v : list string) (st : State) : State :=
  {| properties := properties st;
     hoveredPropertyId := hoveredPropertyId st;
     selectedPropertyIds := v;
     searchParams_view := searchParams_view st;
     isAddDrawerOpen := isAddDrawerOpen st;
     selectedPropertyForCard := selectedPropertyForCard st;
     newPropertyCoords := newPropertyCoords st;
     cardPosition := cardPosition st;
     filters := filters st |}.

(** router.push of the listing route with the 'view' parameter replaced. *)
Definition pushView (v : option string) (st : State) : State :=
  {| properties := properties st;
     hoveredPropertyId := hoveredPropertyId st;
     selectedPropertyIds := selectedPropertyIds st;
     searchParams_view := v;
     isAddDrawerOpen := isAddDrawerOpen st;
     selectedPropertyForCard := selectedPropertyForCard st;
     newPropertyCoords := newPropertyCoords st;
     cardPosition := cardPosition st;
     filters := filters st |}.

Definition setIsAddDrawerOpen (v : bool) (st : State) : State :=
  {| properties := properties st;
     hoveredPropertyId := hoveredPropertyId st;
     selectedPropertyIds := selectedPropertyIds st;
     searchParams_view := searchParams_view st;
     isAddDrawerOpen := v;
     selectedPropertyForCard := selectedPropertyForCard st;
     newPropertyCoords := newPropertyCoords st;
     cardPosition := cardPosition st;
     filters := filters st |}.

Definition setSelectedPropertyForCard (v : option Property) (st : State) : State :=
  {| properties := properties st;
     hoveredPropertyId := hoveredPropertyId st;
     selectedPropertyIds := selectedPropertyIds st;
     searchParams_view := searchParams_view st;
     isAddDrawerOpen := isAddDrawerOpen st;
     selectedPropertyForCard := v;
     newPropertyCoords := newPropertyCoords st;
     cardPosition := cardPosition st;
     filters := filters st |}.

Definition setNewPropertyCoords (v : option LatLng) (st : State) : State :=
  {| properties := properties st;
     hoveredPropertyId := hoveredPropertyId st;
     selectedPropertyIds := selectedPropertyIds st;
     searchParams_view := searchParams_view st;
     isAddDrawerOpen := isAddDrawerOpen st;
     selectedPropertyForCard := selectedPropertyForCard st;
     newPropertyCoords := v;
     cardPosition := cardPosition st;
     filters := filters st |}.

Definition setCardPosition (v : option Position) (st : State) : State :=
  {| properties := properties st;
     hoveredPropertyId := hoveredPropertyId st;
     selectedPropertyIds := selectedPropertyIds st;
     searchParams_view := searchParams_view st;
     isAddDrawerOpen := isAddDrawerOpen st;
     selectedPropertyForCard := selectedPropertyForCard st;
     newPropertyCoords := newPropertyCoords st;
     cardPosition := v;
     filters := filters st |}.

Definition setFilters (v : FilterState.t) (st : State) : State :=
  {| properties := properties st;
     hoveredPropertyId := hoveredPropertyId st;
     selectedPropertyIds := selectedPropertyIds st;
     searchParams_view := searchParams_view st;
     isAddDrawerOpen := isAddDrawerOpen st;
     selectedPropertyForCard := selectedPropertyForCard st;
     newPropertyCoords := newPropertyCoords st;
     cardPosition := cardPosition st;
     filters := v |}.

(** The state of the first render: [useState] initial values, the view
    taken from the URL. *)
Definition initialState (initialPropertiesData : list Property)
    (view : option string) : State :=
  {| properties := initialPropertiesData;
     hoveredPropertyId := None;
     selectedPropertyIds := [];
     searchParams_view := view;
     isAddDrawerOpen := false;
     selectedPropertyForCard := None;
     newPropertyCoords := None;
     cardPosition := None;
     filters := FilterState.initial |}.

(** ** The component *)

(** [searchParams.get('view') === 'list' ? 'list' : 'map'] *)
Definition viewMode (st : State) : ViewMode :=
  match searchParams_view st with
  | Some v => if String.eqb v "list" then view_list else view_map
  | None => view_map
  end.

(** [params.set('view', mode); router.push(...)] *)
Definition setViewMode (mode : ViewMode) (st : State) : State :=
  pushView (Some (ViewMode_string mode)) st.

Definition parseAreaRange (range : string) : num * num :=
  if String.eqb range "Semua" || String.eqb range "" then (ofZ 0, PInf)
  else if includes range "+" then (parseInt range, PInf)
  else
    (* [const [min, max] = ...]: a missing element is [undefined], which
       the comparisons of the filter read through ToNumber. *)
    let parts := List.map Number (split "-" range) in
    (toNumber (nth_error parts 0), toNumber (nth_error parts 1)).

(** [useEffect(() => { ... }, [viewMode])]: after a render whose view mode
    differs from the one of the render before.  The component's other
    effect only scrolls a card into view and sets no state. *)
Definition viewModeEffect (before : ViewMode) (st : State) : State :=
  if ViewMode_eqb before (viewMode st) then st
  else setSelectedPropertyForCard None (setSelectedPropertyIds [] st).

Definition handleFilterChange (newFilters : FilterState.partial) (st : State) : State :=
  setSelectedPropertyForCard None
    (setFilters (FilterState.spread (filters st) newFilters) st).

(** [prev.includes(propertyId)] *)
Definition Array_includes (l : list string) (v : string) : bool :=
  existsb (String.eqb v) l.

Definition togglePropertySelection (propertyId : string) (st : State) : State :=
  setSelectedPropertyIds
    (let prev := selectedPropertyIds st in
     if Array_includes prev propertyId
     then filter (fun id => negb (String.eqb id propertyId)) prev
     else prev ++ [propertyId])
    st.

Definition filteredProperties (properties : list Property)
    (filters : FilterState.t) : list Property :=
  let sortedProperties :=
    if String.eqb (FilterState.priceSort filters) "Harga Terendah"
    then sort (fun a b : Property => sub (price a) (price b)) properties
    else if String.eqb (FilterState.priceSort filters) "Harga Tertinggi"
    then sort (fun a b : Property => sub (price b) (price a)) properties
    else properties in
  let '(minBuildingArea, maxBuildingArea) :=
    parseAreaRange (FilterState.buildingArea filters) in
  let '(minLandArea, maxLandArea) :=
    parseAreaRange (FilterState.landArea filters) in
  filter
    (fun property : Property =>
       let term := toLowerCase (FilterState.searchTerm filters) in
       let searchTermMatch :=
         String.eqb (FilterState.searchTerm filters) ""
         || includes (toLowerCase (title property)) term
         || includes (toLowerCase (description property)) term
         || includes (toLowerCase (location property)) term in
       let propertyTypeMatch :=
         String.eqb (FilterState.propertyType filters) "Semua"
         || String.eqb (type property) (FilterState.propertyType filters) in
       let buildingAreaMatch :=
         ge (buildingArea property) minBuildingArea
         && le (buildingArea property) maxBuildingArea in
       let landAreaMatch :=
         ge (landArea property) minLandArea
         && le (landArea property) maxLandArea in
       searchTermMatch && propertyTypeMatch && buildingAreaMatch && landAreaMatch)
    sortedProperties.

Definition handleCardHover (propertyId : option string) (st : State) : State :=
  setHoveredPropertyId propertyId st.

(** [event.domEvent]: a MouseEvent carries client coordinates, any other
    DOM event does not. *)
Inductive DomEvent : Type :=
| MouseEvent (clientX clientY : Z)
| OtherEvent.

(** What the handler reads from the page: [headerRef.current?.offsetHeight]
    ([None] while the ref is empty), [window.innerWidth] and
    [window.innerHeight]. *)
Record Viewport : Type := {
  headerOffsetHeight : option Z;
  innerWidth : Z;
  innerHeight : Z
}.

Definition handleMarkerClick (property : Property) (domEvent : DomEvent)
    (vp : Viewport) (st : State) : State :=
  let st := setSelectedPropertyForCard (Some property) st in
  match domEvent with
  | MouseEvent clientX clientY =>
      let CARD_WIDTH := 384 in
      let CARD_HEIGHT := 300 in
      let PADDING := 16 in
      (* [headerRef.current?.offsetHeight || 0] *)
      let headerHeight :=
        match headerOffsetHeight vp with
        | Some h => if h =? 0 then 0 else h
        | None => 0
        end in
      let clickX := clientX in
      let clickY := clientY in
      let windowWidth := innerWidth vp in
      let windowHeight := innerHeight vp in
      let x0 := clickX + PADDING in
      let y0 := clickY + PADDING in
      let x1 := if x0 <? PADDING then PADDING else x0 in
      let x2 := if x1 + CARD_WIDTH >? windowWidth - PADDING
                then windowWidth - CARD_WIDTH - PADDING else x1 in
      let y1 := if y0 + CARD_HEIGHT >? windowHeight - PADDING
                then windowHeight - CARD_HEIGHT - PADDING else y0 in
      let y2 := if y1 <? headerHeight + PADDING
                then headerHeight + PADDING else y1 in
      setCardPosition (Some {| x := x2; y := y2 |}) st
  | OtherEvent => setCardPosition None st
  end.

(** [e.latLng] may be null. *)
Definition handleMapClick (latLng : option LatLng) (st : State) : State :=
  let st := setSelectedPropertyForCard None st in
  match latLng with
  | Some coords => setIsAddDrawerOpen true (setNewPropertyCoords (Some coords) st)
  | None => st
  end.

Definition handleAddDrawerOpen (open : bool) (st : State) : State :=
  let st := setIsAddDrawerOpen open st in
  if negb open then setNewPropertyCoords None st else st.

Definition handleAddProperty (newPropertyData : PropertyData) (st : State) : State :=
  let newProperty :=
    {| id := toString (List.length (properties st) + 100);
       data := newPropertyData |} in
  setNewPropertyCoords None
    (setIsAddDrawerOpen false
       (setProperties (properties st ++ [newProperty]) st)).

(** The header's [onViewModeChange]. *)
Definition onViewModeChange (mode : ViewMode) (st : State) : State :=
  setSelectedPropertyForCard None (setViewMode mode st).

(** The [style] of the floating card. *)
Inductive CardStyle : Type :=
| TopLeft (top left : Z)
| BottomLeft (bottom left : string).

Definition cardStyle (st : State) : CardStyle :=
  match cardPosition st with
  | Some p => TopLeft (y p) (x p)
  | None => BottomLeft "1rem" "1rem"
  end.

(** [{selectedPropertyForCard && (<Draggable> ... </Draggable>)}]: the
    card that the map pane renders, with its style. *)
Definition floatingCard (st : State) : option (Property * CardStyle) :=
  match selectedPropertyForCard st with
  | Some p => Some (p, cardStyle st)
  | None => None
  end.

(** Modelled from the spec: the add-property form (AddPropertyForm of
    './add-property-form', not part of the sources at hand) receives the
    captured coordinates as [initialCoordinates] and emits "a completed
    property payload (all fields except identifier)" in which, by the
    spec, the coordinates are the captured ones ("opens the add-drawer
    with those coordinates pre-filled; submitting the form ... appends a
    new property with those coordinates"). *)
Definition formPayload (entered : PropertyData) (initialCoordinates : LatLng)
  : PropertyData :=
  {| title := title entered;
     description := description entered;
     location := location entered;
     price := price entered;
     type := type entered;
     buildingArea := buildingArea entered;
     landArea := landArea entered;
     coordinates := initialCoordinates |}.

(** The events the component wires handlers to. *)
Inductive Event : Type :=
| FilterChange (newFilters : FilterState.partial)
| SelectionChange (propertyId : string)
| ViewModeChange (mode : ViewMode)
| MarkerClick (property : Property) (domEvent : DomEvent) (vp : Viewport)
| MapClick (latLng : option LatLng)
| AddPropertyClick
| DrawerOpenChange (open : bool)
| FormSubmit (newPropertyData : PropertyData)
| FormCancel
| ClearSelection
| CardClose
| CardHover (propertyId : option string).

Definition handle (ev : Event) (st : State) : State :=
  match ev with
  | FilterChange newFilters => handleFilterChange newFilters st
  | SelectionChange propertyId => togglePropertySelection propertyId st
  | ViewModeChange mode => onViewModeChange mode st
  | MarkerClick property domEvent vp => handleMarkerClick property domEvent vp st
  | MapClick latLng => handleMapClick latLng st
  | AddPropertyClick => handleAddDrawerOpen true st
  | DrawerOpenChange open => handleAddDrawerOpen open st
  | FormSubmit newPropertyData => handleAddProperty newPropertyData st
  | FormCancel => handleAddDrawerOpen false st
  | ClearSelection => setSelectedPropertyIds [] st
  | CardClose => setSelectedPropertyForCard None st
  | CardHover propertyId => handleCardHover propertyId st
  end.

(** One interaction: the handler, then the effects of the render that
    follows. *)
Definition step (ev : Event) (st : State) : State :=
  viewModeEffect (viewMode st) (handle ev st).

Definition run (evs : list Event) (st : State) : State :=
  fold_left (fun s ev => step ev s) evs st.


(** ** Views of [filteredProperties] used to state its properties

    The memoised computation read as its two stages: the sorted copy
    and the predicate of the final [filter]. *)

Definition sortedProperties (properties : list Property)
    (filters : FilterState.t) : list Property :=
  if String.eqb (FilterState.priceSort filters) "Harga Terendah"
  then sort (fun a b : Property => sub (price a) (price b)) properties
  else if String.eqb (FilterState.priceSort filters) "Harga Tertinggi"
  then sort (fun a b : Property => sub (price b) (price a)) properties
  else properties.

Definition inRange (v : num) (range : num * num) : bool :=
  ge v (fst range) && le v (snd range).

Definition matches (filters : FilterState.t) (property : Property) : bool :=
  let term := toLowerCase (FilterState.searchTerm filters) in
  (String.eqb (FilterState.searchTerm filters) ""
   || includes (toLowerCase (title property)) term
   || includes (toLowerCase (description property)) term
   || includes (toLowerCase (location property)) term)
  && (String.eqb (FilterState.propertyType filters) "Semua"
      || String.eqb (type property) (FilterState.propertyType filters))
  && inRange (buildingArea property)
       (parseAreaRange (FilterState.buildingArea filters))
  && inRange (landArea property)
       (parseAreaRange (FilterState.landArea filters)).

(** ** Sample data for the evaluation lemmas *)

Definition sampleData (t : string) (p b l : Z) : PropertyData :=
  {| title := t;
     description := "";
     location := "Jakarta";
     price := ofZ p;
     type := "Rumah";
     buildingArea := ofZ b;
     landArea := ofZ l;
     coordinates := {| lat := ofZ 0; lng := ofZ 0 |} |}.

Definition sampleProperty (i t : string) (p b l : Z) : Property :=
  {| id := i; data := sampleData t p b l |}.

(** The filters with one field changed from the initial state. *)
Definition withBuildingArea (range : string) : FilterState.t :=
  FilterState.spread FilterState.initial
    {| FilterState.searchTerm' := None;
       FilterState.propertyType' := None;
       FilterState.priceSort' := None;
       FilterState.buildingArea' := Some range;
       FilterState.landArea' := None |}.

Definition withPriceSort (order : string) : FilterState.t :=
  FilterState.spread FilterState.initial
    {| FilterState.searchTerm' := None;
       FilterState.propertyType' := None;
       FilterState.priceSort' := Some order;
       FilterState.buildingArea' := None;
       FilterState.landArea' := None |}.

(** Decimal digits and numerals, to speak about what the parsers read. *)
Definition isDecDigit (c : ascii) : bool :=
  match digitValue 10 c with Some _ => true | None => false end.

Fixpoint allChars (P : ascii -> bool) (s : string) : bool :=
  match s with
  | EmptyString => true
  | String c s' => P c && allChars P s'
  end.

Fixpoint hasChar (c : ascii) (s : string) : bool :=
  match s with
  | EmptyString => false
  | String c' s' => Ascii.eqb c' c || hasChar c s'
  end.

Fixpoint uintValue (d : Decimal.uint) (acc : Z) : Z :=
  match d with
  | Decimal.Nil => acc
  | Decimal.D0 d => uintValue d (10 * acc + 0)
  | Decimal.D1 d => uintValue d (10 * acc + 1)
  | Decimal.D2 d => uintValue d (10 * acc + 2)
  | Decimal.D3 d => uintValue d (10 * acc + 3)
  | Decimal.D4 d => uintValue d (10 * acc + 4)
  | Decimal.D5 d => uintValue d (10 * acc + 5)
  | Decimal.D6 d => uintValue d (10 * acc + 6)
  | Decimal.D7 d => uintValue d (10 * acc + 7)
  | Decimal.D8 d => uintValue d (10 * acc + 8)
  | Decimal.D9 d => uintValue d (10 * acc + 9)
  end.

(** Orders on a sequence of properties, and "the properties of each
    price stand in the same order in both sequences". *)
Definition ascending (l : list Property) : Prop :=
  StronglySorted (fun p q : Property => le (price p) (price q) = true) l.

Definition descending (l : list Property) : Prop :=
  StronglySorted (fun p q : Property => ge (price p) (price q) = true) l.

Definition samePriceOrder (l1 l2 : list Property) : Prop :=
  forall v : num,
    filter (fun p : Property => strictEq (price p) v) l1
    = filter (fun p : Property => strictEq (price p) v) l2.

Definition pricesAreNumbers (l : list Property) : Prop :=
  Forall (fun p : Property => price p <> NaN) l.

(** The comparators handed to [Array.prototype.sort]. *)
Definition byAscendingPrice (a b : Property) : num := sub (price a) (price b).

Definition byDescendingPrice (a b : Property) : num := sub (price b) (price a).

(** The visible set of a state. *)
Definition visible (st : State) : list Property :=
  filteredProperties (properties st) (filters st).

(** A state to evaluate the handlers on: three properties, list view. *)
Definition sampleState : State :=
  initialState
    [sampleProperty "1" "Rumah A" 100 90 120;
     sampleProperty "2" "Rumah B" 50 150 200;
     sampleProperty "3" "Rumah C" 75 60 80]
    (Some "list").

(** [headerRef.current?.offsetHeight || 0], as [handleMarkerClick] reads
    it. *)
Definition headerHeight (vp : Viewport) : Z :=
  match headerOffsetHeight vp with
  | Some h => if h =? 0 then 0 else h
  | None => 0
  end.

(** The property that [handleAddProperty] appends. *)
Definition newProperty (st : State) (newPropertyData : PropertyData) : Property :=
  {| id := toString (List.length (properties st) + 100);
     data := newPropertyData |}.

(** Every identifier that is a decimal numeral denotes a number below
    the next synthesized one. *)
Definition idsBelowNext (ps : list Property) : Prop :=
  forall (p : Property) (k : nat),
    In p ps -> id p = toString k -> (k < List.length ps + 100)%nat.

(** ** The navigation handlers and the wiring of the events *)

(** [l.join(sep)] on an array of strings. *)
Fixpoint join (sep : string) (l : list string) : string :=
  match l with
  | [] => ""
  | a :: l' =>
      match l' with
      | [] => a
      | _ :: _ => a ++ sep ++ join sep l'
      end
  end.

(** [handleCompareClick]: the route handed to [router.push], [None] when
    the handler does nothing. *)
Definition handleCompareClick (st : State) : option string :=
  if (0 <? List.length (selectedPropertyIds st))%nat
  then Some ("/compare?ids=" ++ join "," (selectedPropertyIds st))
  else None.

(** Where the JSX attaches the handlers.  The checkbox of a card calls
    [togglePropertySelection] with the id of a property of the visible
    set, and the cards sit in the pane that is hidden unless the view mode
    is 'list'; the map, whose markers call [handleMarkerClick] and whose
    background calls [handleMapClick], sits in the pane that is hidden
    unless the view mode is 'map'.  The other events are not
    constrained. *)
Definition wired (ev : Event) (st : State) : Prop :=
  match ev with
  | SelectionChange propertyId =>
      viewMode st = view_list
      /\ exists p : Property, In p (visible st) /\ id p = propertyId
  | MarkerClick _ _ _ => viewMode st = view_map
  | MapClick _ => viewMode st = view_map
  | _ => True
  end.

(** A sequence of interactions each of which the page offers when it
    happens. *)
Fixpoint wiredRun (evs : list Event) (st : State) : Prop :=
  match evs with
  | [] => True
  | ev :: evs' => wired ev st /\ wiredRun evs' (step ev st)
  end.

(** The patches the filter bar sends for one field. *)
Definition searchTermPatch (term : string) : FilterState.partial :=
  {| FilterState.searchTerm' := Some term;
     FilterState.propertyType' := None;
     FilterState.priceSort' := None;
     FilterState.buildingArea' := None;
     FilterState.landArea' := None |}.

Definition priceSortPatch (order : string) : FilterState.partial :=
  {| FilterState.searchTerm' := None;
     FilterState.propertyType' := None;
     FilterState.priceSort' := Some order;
     FilterState.buildingArea' := None;
     FilterState.landArea' := None |}.

Definition buildingAreaPatch (range : string) : FilterState.partial :=
  {| FilterState.searchTerm' := None;
     FilterState.propertyType' := None;
     FilterState.priceSort' := None;
     FilterState.buildingArea' := Some range;
     FilterState.landArea' := None |}.

Definition landAreaPatch (range : string) : FilterState.partial :=
  {| FilterState.searchTerm' := None;
     FilterState.propertyType' := None;
     FilterState.priceSort' := None;
     FilterState.buildingArea' := None;
     FilterState.landArea' := Some range |}.

(** Search term and type back at their sentinel values. *)
Definition relaxPatch : FilterState.partial :=
  {| FilterState.searchTerm' := Some "";
     FilterState.propertyType' := Some "Semua";
     FilterState.priceSort' := None;
     FilterState.buildingArea' := None;
     FilterState.landArea' := None |}.

(** What holds of every state the page can reach: no selection while the
    map is shown, no floating card while the list is shown, and every
    selected identifier is the identifier of a property of the
    collection. *)
Definition pageInvariant (st : State) : Prop :=
  (viewMode st = view_map -> selectedPropertyIds st = [])
  /\ (viewMode st = view_list -> selectedPropertyForCard st = None)
  /\ (forall i : string, In i (selectedPropertyIds st) ->
        exists p : Property, In p (properties st) /\ id p = i).

(** No coordinates are pending while the drawer is closed. *)
Definition drawerInvariant (st : State) : Prop :=
  isAddDrawerOpen st = false -> newPropertyCoords st = None.

(** A descriptor that is neither a sentinel nor contains a plus sign or
    a hyphen: [split] leaves it in one part. *)
Definition onePart (range : string) : Prop :=
  hasChar "+" range = false /\ hasChar "-" range = false
  /\ range <> "Semua" /\ range <> "".

(** A collection in which one price is NaN, and the filters that hide
    that property by its type while sorting by ascending price. *)
Definition pricedProperty (i t : string) (p : num) : Property :=
  {| id := i;
     data := {| title := "Properti";
                description := "";
                location := "Jakarta";
                price := p;
                type := t;
                buildingArea := ofZ 90;
                landArea := ofZ 120;
                coordinates := {| lat := ofZ 0; lng := ofZ 0 |} |} |}.

Definition nanPriceCollection : list Property :=
  [pricedProperty "1" "Rumah" (ofZ 50);
   pricedProperty "2" "Tanah" NaN;
   pricedProperty "3" "Rumah" (ofZ 40)].

Definition rumahAscending : FilterState.t :=
  FilterState.spread FilterState.initial
    {| FilterState.searchTerm' := None;
       FilterState.propertyType' := Some "Rumah";
       FilterState.priceSort' := Some "Harga Terendah";
       FilterState.buildingArea' := None;
       FilterState.landArea' := None |}.

(** * Evaluation checks of the builtin models *)

Example parseInt_ex1 : parseInt "100+" = ofZ 100. Proof. reflexivity. Qed.
Example parseInt_ex2 : parseInt "  -0x1fz" = ofZ (-31). Proof. reflexivity. Qed.
Example parseInt_ex3 : parseInt "abc+" = NaN. Proof. reflexivity. Qed.
Example parseInt_ex4 : parseInt "+" = NaN. Proof. reflexivity. Qed.
Example Number_ex1 : Number "100" = ofZ 100. Proof. reflexivity. Qed.
Example Number_ex2 : Number "" = ofZ 0. Proof. reflexivity. Qed.
Example Number_ex3 : Number " 1.50 " = Fin (3 # 2). Proof. reflexivity. Qed.
Example Number_ex4 : Number "1e3" = ofZ 1000. Proof. reflexivity. Qed.
Example Number_ex5 : Number "1e" = NaN. Proof. reflexivity. Qed.
Example Number_ex6 : Number "-Infinity" = NInf. Proof. reflexivity. Qed.
Example Number_ex7 : Number "0x1F" = ofZ 31. Proof. reflexivity. Qed.
Example Number_ex8 : Number "abc" = NaN. Proof. reflexivity. Qed.
Example Number_ex9 : Number ".5" = Fin (1 # 2). Proof. reflexivity. Qed.
Example Number_ex10 : Number "." = NaN. Proof. reflexivity. Qed.
Example Number_ex11 : Number "5." = ofZ 5. Proof. reflexivity. Qed.
Example Number_ex12 : Number "2.5e-1" = Fin (1 # 4). Proof. reflexivity. Qed.
Example Number_ex13 : Number "+0x10" = NaN. Proof. reflexivity. Qed.
Example Number_ex14 : Number "1 2" = NaN. Proof. reflexivity. Qed.
Example Number_ex15 : Number "0.1" = Fin (3602879701896397 # 36028797018963968).
Proof. vm_compute. reflexivity. Qed.
Example Number_ex16 : Number "9007199254740993" = ofZ 9007199254740992.
Proof. vm_compute. reflexivity. Qed.
Example Number_ex17 : Number "1e400" = PInf. Proof. vm_compute. reflexivity. Qed.
Example Number_ex18 : Number "-1e400" = NInf. Proof. vm_compute. reflexivity. Qed.
Example Number_ex19 : Number "1e-400" = ofZ 0. Proof. vm_compute. reflexivity. Qed.
Example Number_ex20 : Number "1.7976931348623157e308"
  = ofZ (2 ^ 1024 - 2 ^ 971). Proof. vm_compute. reflexivity. Qed.
Example Number_ex21 : Number "1.7976931348623159e308" = PInf.
Proof. vm_compute. reflexivity. Qed.
Example Number_ex22 : Number "5e-324" = Fin (1 # Z.to_pos (2 ^ 1074)).
Proof. vm_compute. reflexivity. Qed.
Example Number_ex23 : Number "2e-324" = ofZ 0. Proof. vm_compute. reflexivity. Qed.
Example Number_ex24 : Number "9007199254740995" = ofZ 9007199254740996.
Proof. vm_compute. reflexivity. Qed.
Example Number_ex25 : Number "0.5" = Fin (1 # 2). Proof. vm_compute. reflexivity. Qed.
Example parseInt_ex5 : parseInt "9007199254740993" = ofZ 9007199254740992.
Proof. vm_compute. reflexivity. Qed.
Example split_ex1 : split "-" "100-200" = ["100"; "200"]. Proof. reflexivity. Qed.
Example split_ex2 : split "-" "" = [""]. Proof. reflexivity. Qed.
Example split_ex3 : split "-" "-5-10" = [""; "5"; "10"]. Proof. reflexivity. Qed.
Example includes_ex1 : includes "100+" "+" = true. Proof. reflexivity. Qed.
Example includes_ex2 : includes "abc" "" = true. Proof. reflexivity. Qed.
Example includes_ex3 : includes "Rumah Mewah" "mah m" = false. Proof. reflexivity. Qed.
Example toLowerCase_ex : toLowerCase "Rumah MEWAH" = "rumah mewah". Proof. reflexivity. Qed.
Example toString_ex : toString 103 = "103". Proof. reflexivity. Qed.

(** * Order facts about JavaScript numbers *)

Ltac num_cases :=
  intros; try solve [cbn in *; first [reflexivity | discriminate | congruence]].

Section NumFacts.

Lemma lt_Fin (a b : Q) : lt (Fin a) (Fin b) = true <-> (a < b)%Q.
Proof.
  rewrite Qlt_alt. unfold lt, lessThan.
  destruct (a ?= b)%Q; split; congruence.
Qed.

Lemma le_Fin (a b : Q) : le (Fin a) (Fin b) = true <-> (a <= b)%Q.
Proof.
  rewrite Qle_alt, <- Qcompare_antisym. unfold le, lessThan.
  destruct (b ?= a)%Q; simpl; split; congruence.
Qed.

Lemma ge_Fin (a b : Q) : ge (Fin a) (Fin b) = true <-> (b <= a)%Q.
Proof.
  rewrite Qle_alt, <- Qcompare_antisym. unfold ge, lessThan.
  destruct (a ?= b)%Q; simpl; split; congruence.
Qed.

Lemma strictEq_Fin (a b : Q) : strictEq (Fin a) (Fin b) = true <-> (a == b)%Q.
Proof. simpl. apply Qeq_bool_iff. Qed.

Lemma ge_NaN_r (a : num) : ge a NaN = false.
Proof. now destruct a. Qed.

Lemma ge_NaN_l (a : num) : ge NaN a = false.
Proof. reflexivity. Qed.

Lemma le_NaN_r (a : num) : le a NaN = false.
Proof. reflexivity. Qed.

Lemma le_NaN_l (a : num) : le NaN a = false.
Proof. destruct a; reflexivity. Qed.

Lemma le_PInf (a : num) : a <> NaN -> le a PInf = true.
Proof. destruct a; simpl; intros; try reflexivity; congruence. Qed.

Lemma ge_not_NaN (a b : num) : ge a b = true -> a <> NaN.
Proof. destruct a; cbn; intros; congruence. Qed.

Lemma gt_le (a b : num) : gt a b = true -> le b a = true.
Proof.
  destruct a as [| |p|], b as [| |q|]; num_cases.
  apply le_Fin. apply Qlt_le_weak. now apply lt_Fin.
Qed.

Lemma not_gt_le (a b : num) :
  a <> NaN -> b <> NaN -> gt a b = false -> le a b = true.
Proof.
  destruct a as [| |p|], b as [| |q|]; num_cases.
  apply le_Fin. apply Qnot_lt_le. intros L.
  apply lt_Fin in L. unfold gt in *. congruence.
Qed.

Lemma gt_asym (a b : num) : gt a b = true -> gt b a = false.
Proof.
  destruct a as [| |p|], b as [| |q|]; num_cases.
  unfold gt in *.
  destruct (lt (Fin p) (Fin q)) eqn:E; [|reflexivity].
  apply lt_Fin in E. apply lt_Fin in H.
  exfalso. apply (Qlt_irrefl p). now apply Qlt_trans with q.
Qed.

Lemma le_trans (a b c : num) : le a b = true -> le b c = true -> le a c = true.
Proof.
  destruct a as [| |p|], b as [| |q|], c as [| |r|]; num_cases.
  apply le_Fin. apply Qle_trans with q; now apply le_Fin.
Qed.

Lemma le_antisym (a b : num) :
  le a b = true -> le b a = true -> strictEq a b = true.
Proof.
  destruct a as [| |p|], b as [| |q|]; num_cases.
  apply strictEq_Fin. apply Qle_antisym; now apply le_Fin.
Qed.

Lemma strictEq_not_gt (a b : num) : strictEq a b = true -> gt a b = false.
Proof.
  destruct a as [| |p|], b as [| |q|]; num_cases.
  apply strictEq_Fin in H. unfold gt.
  destruct (lt (Fin q) (Fin p)) eqn:E; [|reflexivity].
  apply lt_Fin in E. rewrite H in E. exfalso. now apply (Qlt_irrefl q).
Qed.

Lemma strictEq_refl (a : num) : a <> NaN -> strictEq a a = true.
Proof.
  destruct a; num_cases. apply strictEq_Fin. reflexivity.
Qed.

Lemma strictEq_compat (a b v : num) :
  strictEq a b = true -> strictEq a v = strictEq b v.
Proof.
  destruct a as [| |p|], b as [| |q|], v as [| |r|]; num_cases.
  apply strictEq_Fin in H. cbn.
  destruct (Qeq_bool p r) eqn:E1, (Qeq_bool q r) eqn:E2; try reflexivity.
  - apply Qeq_bool_iff in E1. apply Qeq_bool_neq in E2.
    exfalso. apply E2. now rewrite <- H.
  - apply Qeq_bool_iff in E2. apply Qeq_bool_neq in E1.
    exfalso. apply E1. now rewrite H.
Qed.

(** The sign test of the sort on a difference is the comparison of the
    operands, NaN and equal infinities included. *)
Lemma gt_sub_zero (a b : num) :
  gt (let v := sub a b in if isNaN v then ofZ 0 else v) (ofZ 0) = gt a b.
Proof.
  destruct a as [| |p|], b as [| |q|]; try reflexivity.
  cbn [sub isNaN]. unfold gt, ofZ.
  destruct (lt (Fin q) (Fin p)) eqn:E.
  - apply lt_Fin. apply lt_Fin in E. unfold Qminus.
    now apply (proj1 (Qlt_minus_iff q p)).
  - destruct (lt (Fin (inject_Z 0)) (Fin (p - q))) eqn:E'; [|reflexivity].
    apply lt_Fin in E'. unfold Qminus in E'.
    apply (proj2 (Qlt_minus_iff q p)) in E'. apply lt_Fin in E'. congruence.
Qed.

End NumFacts.

(** * Array.prototype.sort: permutation, stability, order, fixed points *)

Section SortFacts.
Context {A : Type}.
Variable comparefn : A -> A -> num.

(** [after a b]: the sort puts [a] after [b] although [a] came first. *)
Let after (a b : A) : bool := gt (sortCompare comparefn a b) (ofZ 0).

Lemma insert_cons (a b : A) (l : list A) :
  insert comparefn a (b :: l) =
  if after a b then b :: insert comparefn a l else a :: b :: l.
Proof. reflexivity. Qed.

Lemma insert_perm (a : A) (l : list A) :
  Permutation (insert comparefn a l) (a :: l).
Proof.
  induction l as [|b l IH]; [reflexivity|].
  rewrite insert_cons. destruct (after a b); [|reflexivity].
  rewrite IH. apply perm_swap.
Qed.

Lemma sort_perm (l : list A) : Permutation (sort comparefn l) l.
Proof.
  induction l as [|a l IH]; simpl; [constructor|].
  rewrite insert_perm. now constructor.
Qed.

Lemma sort_In (a : A) (l : list A) : In a (sort comparefn l) <-> In a l.
Proof.
  split; apply Permutation_in; [|symmetry]; apply sort_perm.
Qed.

(** Stability, for any class [P] of elements that never overtake one
    another. *)
Lemma filter_insert (P : A -> bool) (a : A) (l : list A) :
  (forall b, In b l -> P a = true -> P b = true -> after a b = false) ->
  filter P (insert comparefn a l) = filter P (a :: l).
Proof.
  induction l as [|b l IH]; intros H; [reflexivity|].
  rewrite insert_cons. destruct (after a b) eqn:E; [|reflexivity].
  simpl. rewrite IH by (intros; apply H; simpl; auto).
  simpl. destruct (P a) eqn:Pa, (P b) eqn:Pb; try reflexivity.
  rewrite H in E; simpl; auto. discriminate.
Qed.

Lemma filter_sort (P : A -> bool) (l : list A) :
  (forall a b, In a l -> In b l -> P a = true -> P b = true -> after a b = false) ->
  filter P (sort comparefn l) = filter P l.
Proof.
  induction l as [|a l IH]; intros H; [reflexivity|].
  simpl sort. rewrite filter_insert.
  - simpl. rewrite IH; [reflexivity|]. intros; apply H; simpl; auto.
  - intros b Hb. apply H; simpl; auto. right. now apply sort_In.
Qed.

(** Order. *)
Lemma insert_HdRel (R : A -> A -> Prop) (a b : A) (l : list A) :
  R b a -> HdRel R b l -> HdRel R b (insert comparefn a l).
Proof.
  intros Hba Hl. destruct l as [|c l]; simpl; [now constructor|].
  fold (after a c). inversion Hl; subst.
  destruct (after a c); now constructor.
Qed.

Lemma insert_Sorted (R : A -> A -> Prop) (a : A) (l : list A) :
  (forall b, In b l -> after a b = true -> R b a) ->
  (forall b, In b l -> after a b = false -> R a b) ->
  Sorted R l -> Sorted R (insert comparefn a l).
Proof.
  induction l as [|b l IH]; intros Hgt Hle Hs.
  - repeat constructor.
  - rewrite insert_cons. inversion Hs; subst.
    destruct (after a b) eqn:E.
    + constructor.
      * apply IH; auto; intros; [apply Hgt | apply Hle]; simpl; auto.
      * apply insert_HdRel; auto. apply Hgt; simpl; auto.
    + constructor; auto. constructor. apply Hle; simpl; auto.
Qed.

Lemma sort_Sorted (R : A -> A -> Prop) (l : list A) :
  (forall a b, In a l -> In b l -> after a b = true -> R b a) ->
  (forall a b, In a l -> In b l -> after a b = false -> R a b) ->
  Sorted R (sort comparefn l).
Proof.
  induction l as [|a l IH]; intros Hgt Hle; [constructor|].
  simpl. apply insert_Sorted.
  - intros b Hb. apply Hgt; simpl; auto. right. now apply sort_In.
  - intros b Hb. apply Hle; simpl; auto. right. now apply sort_In.
  - apply IH; intros; [apply Hgt | apply Hle]; simpl; auto.
Qed.

(** A sequence in which no element must go after its successor is left
    as it is; so sorting twice is sorting once. *)
Lemma sort_fixed (l : list A) :
  Sorted (fun a b => after a b = false) l -> sort comparefn l = l.
Proof.
  induction 1 as [|a l Hs IH Hd]; [reflexivity|].
  simpl. rewrite IH. destruct Hd as [|b l Hab]; [reflexivity|].
  rewrite insert_cons, Hab. reflexivity.
Qed.

Lemma sort_idempotent (l : list A) :
  (forall a b, after a b = true -> after b a = false) ->
  sort comparefn (sort comparefn l) = sort comparefn l.
Proof.
  intros Hasym. apply sort_fixed. apply sort_Sorted; auto.
Qed.

End SortFacts.

(** Two stable arrangements of the same classes that are both ordered
    coincide: the contract of a stable sort has one solution. *)
Section StableUnique.
Context {A : Type}.
Variable R : A -> A -> Prop.
Variable eqv : A -> A -> bool.
Hypothesis R_antisym : forall a b, R a b -> R b a -> eqv a b = true.

Lemma stable_sorted_unique (l1 l2 : list A) :
  (forall a, In a l1 -> eqv a a = true) ->
  (forall a, In a l2 -> eqv a a = true) ->
  StronglySorted R l1 -> StronglySorted R l2 ->
  (forall c, filter (eqv c) l1 = filter (eqv c) l2) ->
  l1 = l2.
Proof.
  revert l2. induction l1 as [|a t1 IH]; intros l2 R1 R2 S1 S2 HF.
  - destruct l2 as [|b t2]; [reflexivity|].
    specialize (HF b). simpl in HF. rewrite R2 in HF by (simpl; auto).
    discriminate.
  - destruct l2 as [|b t2].
    + specialize (HF a). simpl in HF. rewrite R1 in HF by (simpl; auto).
      discriminate.
    + inversion S1 as [|? ? S1' F1]; subst. inversion S2 as [|? ? S2' F2]; subst.
      assert (Hab : a = b).
      { assert (Ia : In a (b :: t2)).
        { assert (I : In a (filter (eqv a) (a :: t1)))
            by (apply filter_In; split; [|apply R1]; simpl; auto).
          rewrite HF in I. now apply filter_In in I. }
        assert (Ib : In b (a :: t1)).
        { assert (I : In b (filter (eqv b) (b :: t2)))
            by (apply filter_In; split; [|apply R2]; simpl; auto).
          rewrite <- HF in I. now apply filter_In in I. }
        destruct Ia as [->|Ia]; [reflexivity|].
        destruct Ib as [->|Ib]; [reflexivity|].
        rewrite Forall_forall in F1, F2.
        assert (E : eqv a b = true) by (apply R_antisym; auto).
        specialize (HF a). simpl in HF.
        rewrite R1, E in HF by (simpl; auto). congruence. }
      subst b. f_equal. apply IH; auto.
      * intros; apply R1; simpl; auto.
      * intros; apply R2; simpl; auto.
      * intros c. specialize (HF c). simpl in HF.
        destruct (eqv c a); congruence.
Qed.

End StableUnique.

(** * What the parsers read on decimal numerals *)

Section NumeralFacts.

Lemma filteredProperties_unfold (ps : list Property) (f : FilterState.t) :
  filteredProperties ps f = filter (matches f) (sortedProperties ps f).
Proof.
  unfold filteredProperties, matches, sortedProperties, inRange.
  destruct (parseAreaRange (FilterState.buildingArea f)) as [minB maxB].
  destruct (parseAreaRange (FilterState.landArea f)) as [minL maxL].
  reflexivity.
Qed.

Lemma uintValue_of_uint_acc (d : Decimal.uint) (a : nat) :
  uintValue d (Z.of_nat a) = Z.of_nat (Nat.of_uint_acc d a).
Proof.
  revert a. induction d; intros a; cbn [uintValue Nat.of_uint_acc];
    try reflexivity; rewrite <- IHd; f_equal; rewrite Nat.tail_mul_spec; lia.
Qed.

Lemma uintValue_to_uint (n : nat) : uintValue (Nat.to_uint n) 0 = Z.of_nat n.
Proof.
  change 0 with (Z.of_nat 0). rewrite uintValue_of_uint_acc.
  f_equal. apply (Unsigned.of_to n).
Qed.

Lemma digits_cons (radix : Z) (c : ascii) (s : string) (acc : Z) (len : nat) :
  digits radix (String c s) acc len =
  match digitValue radix c with
  | Some d => digits radix s (radix * acc + d) (S len)
  | None => (acc, len, String c s)
  end.
Proof. reflexivity. Qed.

Ltac eval_digit :=
  match goal with
  | |- context [digitValue ?r (Ascii ?b0 ?b1 ?b2 ?b3 ?b4 ?b5 ?b6 ?b7)] =>
      let c := constr:(Ascii b0 b1 b2 b3 b4 b5 b6 b7) in
      let v := eval vm_compute in (digitValue r c) in
      change (digitValue r c) with v; cbv beta iota
  end.

Lemma digits_numeral (d : Decimal.uint) (rest : string) (acc : Z) (len : nat) :
  digits 10 (NilEmpty.string_of_uint d ++ rest) acc len =
  digits 10 rest (uintValue d acc) (Decimal.nb_digits d + len)%nat.
Proof.
  revert acc len. induction d; intros acc len;
    cbn [NilEmpty.string_of_uint uintValue Decimal.nb_digits append];
    try reflexivity;
    rewrite digits_cons; eval_digit; rewrite IHd; f_equal; lia.
Qed.


Lemma to_uint_nonnil (n : nat) : Nat.to_uint n <> Decimal.Nil.
Proof.
  rewrite <- (Unsigned.of_to n) at 1. rewrite Unsigned.to_of.
  apply DecimalFacts.unorm_nonnil.
Qed.




Lemma toDouble_small (z : Z) :
  Z.abs z <= 2 ^ 53 -> toDouble (inject_Z z) = ofZ z.
Proof.
  intros H. unfold toDouble. cbn [inject_Z Qnum Qden].
  apply Z.leb_le in H. rewrite H. reflexivity.
Qed.



Lemma includes_char (c : ascii) (s : string) :
  includes s (String c "") = hasChar c s.
Proof.
  induction s as [|b s IH]; [reflexivity|].
  cbn [includes stripPrefix hasChar]. rewrite (Ascii.eqb_sym b c).
  destruct (Ascii.eqb c b); [reflexivity|]. exact IH.
Qed.

Lemma hasChar_app (c : ascii) (s t : string) :
  hasChar c (s ++ t) = hasChar c s || hasChar c t.
Proof.
  induction s as [|b s IH]; [reflexivity|].
  cbn [append hasChar]. rewrite IH. now rewrite orb_assoc.
Qed.

Lemma split_nosep (sep : ascii) (s : string) :
  hasChar sep s = false -> split sep s = [s].
Proof.
  induction s as [|b s IH]; [reflexivity|].
  cbn [hasChar split]. intros H. apply orb_false_elim in H as [H1 H2].
  rewrite H1, (IH H2). reflexivity.
Qed.

Lemma split_app (sep : ascii) (s t : string) :
  hasChar sep s = false -> split sep (s ++ String sep t) = s :: split sep t.
Proof.
  induction s as [|b s IH]; intros H.
  - cbn [append split]. now rewrite Ascii.eqb_refl.
  - cbn [hasChar] in H. apply orb_false_elim in H as [H1 H2].
    cbn [append split]. rewrite H1, (IH H2). reflexivity.
Qed.


Lemma numeral_not_sentinel (d : Decimal.uint) (rest : string) :
  d <> Decimal.Nil ->
  String.eqb (NilEmpty.string_of_uint d ++ rest) "Semua"
  || String.eqb (NilEmpty.string_of_uint d ++ rest) "" = false.
Proof. destruct d; try congruence; reflexivity. Qed.

Lemma numeral_bound (n : nat) :
  Z.of_nat n <= 2 ^ 53 -> Z.abs (uintValue (Nat.to_uint n) 0) <= 2 ^ 53.
Proof. rewrite uintValue_to_uint. lia. Qed.



End NumeralFacts.

(** * The visible set *)

Section VisibleSet.

Lemma filter_all_iff {A : Type} (f : A -> bool) (l : list A) :
  filter f l = l <-> Forall (fun a => f a = true) l.
Proof.
  induction l as [|a l IH]; simpl.
  - split; auto.
  - destruct (f a) eqn:E; split; intros H.
    + injection H as H. constructor; auto. now apply IH.
    + inversion H; subst. f_equal. now apply IH.
    + pose proof (filter_length_le f l) as L. rewrite H in L. simpl in L. lia.
    + inversion H; congruence.
Qed.

Lemma In_filteredProperties (ps : list Property) (f : FilterState.t) (p : Property) :
  In p (filteredProperties ps f) <-> In p ps /\ matches f p = true.
Proof.
  rewrite filteredProperties_unfold, filter_In.
  unfold sortedProperties.
  destruct (String.eqb (FilterState.priceSort f) "Harga Terendah");
    [rewrite sort_In; tauto|].
  destruct (String.eqb (FilterState.priceSort f) "Harga Tertinggi");
    [rewrite sort_In; tauto|tauto].
Qed.

Lemma inRange_sentinel (v : num) : inRange v (ofZ 0, PInf) = ge v (ofZ 0).
Proof.
  unfold inRange. cbn [fst snd].
  destruct (ge v (ofZ 0)) eqn:E; [|reflexivity].
  rewrite le_PInf; [reflexivity|]. now apply ge_not_NaN in E.
Qed.

Lemma inRange_NaN (v : num) (r : num * num) :
  fst r = NaN \/ snd r = NaN -> inRange v r = false.
Proof.
  unfold inRange. intros [-> | ->].
  - now rewrite ge_NaN_r.
  - rewrite le_NaN_r. apply andb_false_r.
Qed.

Lemma matches_initial (p : Property) :
  matches FilterState.initial p =
  ge (buildingArea p) (ofZ 0) && ge (landArea p) (ofZ 0).
Proof.
  unfold matches. cbn [FilterState.initial FilterState.searchTerm
    FilterState.propertyType FilterState.buildingArea FilterState.landArea].
  change (parseAreaRange "Semua") with (ofZ 0, PInf).
  now rewrite !inRange_sentinel.
Qed.


(** C1, amended: with every filter at its sentinel value the visible set
    is the collection without the properties whose building or land area
    is not a number at least 0, in the order of the collection; it is the
    full collection exactly when every property has a building area and a
    land area that are numbers at least 0. *)
Theorem sentinel_filters_visible_set (ps : list Property) :
  filteredProperties ps FilterState.initial =
    filter (fun p : Property =>
              ge (buildingArea p) (ofZ 0) && ge (landArea p) (ofZ 0)) ps
  /\ (filteredProperties ps FilterState.initial = ps <->
      Forall (fun p : Property =>
                ge (buildingArea p) (ofZ 0) = true
                /\ ge (landArea p) (ofZ 0) = true) ps).
Proof.
  assert (E : filteredProperties ps FilterState.initial =
              filter (fun p : Property =>
                ge (buildingArea p) (ofZ 0) && ge (landArea p) (ofZ 0)) ps).
  { rewrite filteredProperties_unfold. apply filter_ext, matches_initial. }
  split; [exact E|].
  rewrite E, filter_all_iff. split; intros H; eapply Forall_impl; try exact H;
    cbv beta; intros p; [apply andb_prop | intros []; now apply andb_true_intro].
Qed.

Lemma sentinel_filters_visible_set_witness :
  Forall (fun p : Property =>
            ge (buildingArea p) (ofZ 0) = true
            /\ ge (landArea p) (ofZ 0) = true) (properties sampleState)
  /\ filteredProperties (properties sampleState) FilterState.initial
     = properties sampleState.
Proof.
  assert (F : Forall (fun p : Property =>
            ge (buildingArea p) (ofZ 0) = true
            /\ ge (landArea p) (ofZ 0) = true) (properties sampleState))
    by (repeat constructor).
  split; [exact F|].
  exact (proj2 (proj2 (sentinel_filters_visible_set (properties sampleState))) F).
Defined.

(** C1 as stated fails: a property whose building area is negative is
    dropped although every filter is at its sentinel value. *)
Lemma sentinel_filters_drop_negative_area :
  ~ (forall ps : list Property, filteredProperties ps FilterState.initial = ps).
Proof.
  intros H.
  specialize (H [sampleProperty "1" "Rumah A" 500 (-1) 120]).
  discriminate H.
Qed.




(** The descriptors that give a NaN bound: one with a plus sign that
    [parseInt] cannot read, and 'A-B' where [Number] cannot read A or B. *)
Lemma parseAreaRange_plus (range : string) :
  includes range "+" = true -> parseAreaRange range = (parseInt range, PInf).
Proof.
  intros H. unfold parseAreaRange. rewrite H.
  destruct (String.eqb range "Semua") eqn:E1.
  - apply String.eqb_eq in E1. subst. discriminate H.
  - destruct (String.eqb range "") eqn:E2; [|reflexivity].
    apply String.eqb_eq in E2. subst. discriminate H.
Qed.

Lemma parseAreaRange_dash (a b : string) :
  hasChar "-" a = false -> hasChar "+" a = false ->
  hasChar "-" b = false -> hasChar "+" b = false ->
  parseAreaRange (a ++ "-" ++ b) = (Number a, Number b).
Proof.
  intros Ha Pa Hb Pb. unfold parseAreaRange.
  assert (D : hasChar "-" (a ++ "-" ++ b) = true).
  { rewrite hasChar_app. cbn [append hasChar]. rewrite Ascii.eqb_refl.
    apply orb_true_r. }
  destruct (String.eqb (a ++ "-" ++ b) "Semua") eqn:E1.
  { apply String.eqb_eq in E1. rewrite E1 in D. discriminate D. }
  destruct (String.eqb (a ++ "-" ++ b) "") eqn:E2.
  { apply String.eqb_eq in E2. rewrite E2 in D. discriminate D. }
  cbn [orb]. rewrite includes_char, hasChar_app. cbn [append hasChar].
  rewrite Pa, Pb. change (Ascii.eqb "-" "+") with false. cbn [orb].
  rewrite split_app by exact Ha. rewrite split_nosep by exact Hb.
  reflexivity.
Qed.

(** C10: when a bound of the building-area range or of the land-area
    range is NaN, no property passes the filter, whatever the collection
    and the other filters. *)
Theorem nan_bound_empties_visible_set (ps : list Property) (f : FilterState.t) :
  (fst (parseAreaRange (FilterState.buildingArea f)) = NaN
   \/ snd (parseAreaRange (FilterState.buildingArea f)) = NaN)
  \/ (fst (parseAreaRange (FilterState.landArea f)) = NaN
      \/ snd (parseAreaRange (FilterState.landArea f)) = NaN) ->
  filteredProperties ps f = [].
Proof.
  intros H. rewrite filteredProperties_unfold.
  assert (M : forall p, matches f p = false).
  { intros p. unfold matches. destruct H as [H | H].
    - rewrite (inRange_NaN _ _ H). now rewrite andb_false_r.
    - rewrite (inRange_NaN _ _ H). now rewrite andb_false_r. }
  induction (sortedProperties ps f) as [|a l IH]; [reflexivity|].
  simpl. now rewrite M.
Qed.

Lemma nan_bound_empties_visible_set_witness :
  fst (parseAreaRange (FilterState.buildingArea (withBuildingArea "abc+"))) = NaN
  /\ filteredProperties
       [sampleProperty "1" "Rumah A" 500 90 120;
        sampleProperty "2" "Rumah B" 700 150 200]
       (withBuildingArea "abc+") = [].
Proof.
  split; [reflexivity|].
  apply nan_bound_empties_visible_set. left. left. reflexivity.
Defined.

End VisibleSet.

(** * Sorting by price *)

Section PriceSort.

Lemma after_ascending (a b : Property) :
  gt (sortCompare byAscendingPrice a b) (ofZ 0) = gt (price a) (price b).
Proof. apply gt_sub_zero. Qed.

Lemma after_descending (a b : Property) :
  gt (sortCompare byDescendingPrice a b) (ofZ 0) = gt (price b) (price a).
Proof. apply gt_sub_zero. Qed.

Lemma strictEq_same_class (a b v : num) :
  strictEq a v = true -> strictEq b v = true -> gt a b = false.
Proof.
  intros Ha Hb. apply strictEq_not_gt.
  destruct a as [| |p|], b as [| |q|], v as [| |r|]; num_cases.
  apply strictEq_Fin. apply strictEq_Fin in Ha, Hb. now rewrite Ha, Hb.
Qed.

Lemma strictEq_sym (a b : num) : strictEq a b = strictEq b a.
Proof.
  destruct a as [| |p|], b as [| |q|]; try reflexivity.
  cbn. destruct (Qeq_bool p q) eqn:E1, (Qeq_bool q p) eqn:E2; try reflexivity.
  - apply Qeq_bool_iff in E1. apply Qeq_bool_neq in E2. now symmetry in E1.
  - apply Qeq_bool_iff in E2. apply Qeq_bool_neq in E1. now symmetry in E2.
Qed.

Lemma le_not_gt (a b : num) : le a b = true -> gt a b = false.
Proof.
  unfold le, gt, lt. destruct (lessThan b a) as [[]|]; simpl; congruence.
Qed.

Lemma StronglySorted_filter {A : Type} (R : A -> A -> Prop) (f : A -> bool)
    (l : list A) :
  StronglySorted R l -> StronglySorted R (filter f l).
Proof.
  induction 1 as [|a l Hs IH Hf]; simpl; [constructor|].
  destruct (f a); [|exact IH]. constructor; [exact IH|].
  rewrite Forall_forall in *. intros b Hb. apply Hf.
  now apply filter_In in Hb.
Qed.

Lemma filter_comm {A : Type} (f g : A -> bool) (l : list A) :
  filter f (filter g l) = filter g (filter f l).
Proof.
  induction l as [|a l IH]; [reflexivity|]. simpl.
  destruct (f a) eqn:Ef, (g a) eqn:Eg; simpl; rewrite ?Ef, ?Eg, IH; reflexivity.
Qed.

Lemma filter_idem {A : Type} (f : A -> bool) (l : list A) :
  filter f (filter f l) = filter f l.
Proof.
  apply filter_all_iff. apply Forall_forall. intros a Ha.
  now apply filter_In in Ha.
Qed.

Lemma price_le_trans :
  Relations_1.Transitive (fun p q : Property => le (price p) (price q) = true).
Proof. intros p q r. apply le_trans. Qed.

Lemma price_ge_trans :
  Relations_1.Transitive (fun p q : Property => ge (price p) (price q) = true).
Proof. intros p q r H1 H2. exact (le_trans _ _ _ H2 H1). Qed.

Lemma pricesAreNumbers_In (l : list Property) (p : Property) :
  pricesAreNumbers l -> In p l -> price p <> NaN.
Proof.
  intros H Hin. unfold pricesAreNumbers in H. rewrite Forall_forall in H.
  now apply H.
Qed.

Lemma sort_ascending (l : list Property) :
  pricesAreNumbers l -> ascending (sort byAscendingPrice l).
Proof.
  intros H. apply Sorted_StronglySorted; [exact price_le_trans|].
  apply sort_Sorted; intros a b Ha Hb; rewrite after_ascending.
  - apply gt_le.
  - apply not_gt_le; eapply pricesAreNumbers_In; eauto.
Qed.

Lemma sort_descending (l : list Property) :
  pricesAreNumbers l -> descending (sort byDescendingPrice l).
Proof.
  intros H. apply Sorted_StronglySorted; [exact price_ge_trans|].
  apply sort_Sorted; intros a b Ha Hb; rewrite after_descending.
  - apply (gt_le (price b) (price a)).
  - apply (not_gt_le (price b) (price a)); eapply pricesAreNumbers_In; eauto.
Qed.

Lemma sort_ascending_stable (l : list Property) :
  samePriceOrder (sort byAscendingPrice l) l.
Proof.
  intros v. apply filter_sort. intros a b _ _ Ha Hb.
  rewrite after_ascending. now apply strictEq_same_class with v.
Qed.

Lemma sort_descending_stable (l : list Property) :
  samePriceOrder (sort byDescendingPrice l) l.
Proof.
  intros v. apply filter_sort. intros a b _ _ Ha Hb.
  rewrite after_descending. now apply strictEq_same_class with v.
Qed.

Lemma sort_ascending_fixed (l : list Property) :
  ascending l -> sort byAscendingPrice l = l.
Proof.
  intros H. apply sort_fixed. apply StronglySorted_Sorted in H.
  eapply Sorted_ind with (P := Sorted _); [constructor | | exact H].
  intros a l' _ IH Hd. constructor; [exact IH|].
  destruct Hd; constructor. rewrite after_ascending. now apply le_not_gt.
Qed.

Lemma sort_descending_fixed (l : list Property) :
  descending l -> sort byDescendingPrice l = l.
Proof.
  intros H. apply sort_fixed. apply StronglySorted_Sorted in H.
  eapply Sorted_ind with (P := Sorted _); [constructor | | exact H].
  intros a l' _ IH Hd. constructor; [exact IH|].
  destruct Hd as [|b l'' Hab]; constructor. rewrite after_descending.
  apply (le_not_gt (price b) (price a)). exact Hab.
Qed.

(** Sorting a sorted copy again changes nothing, when the prices are
    numbers. *)
Lemma sortedProperties_idempotent (ps : list Property) (f : FilterState.t) :
  pricesAreNumbers ps ->
  sortedProperties (sortedProperties ps f) f = sortedProperties ps f.
Proof.
  intros Hn. unfold sortedProperties.
  destruct (String.eqb (FilterState.priceSort f) "Harga Terendah").
  - change (sort byAscendingPrice (sort byAscendingPrice ps)
            = sort byAscendingPrice ps).
    apply sort_ascending_fixed. now apply sort_ascending.
  - destruct (String.eqb (FilterState.priceSort f) "Harga Tertinggi");
      [|reflexivity].
    change (sort byDescendingPrice (sort byDescendingPrice ps)
            = sort byDescendingPrice ps).
    apply sort_descending_fixed. now apply sort_descending.
Qed.

(** The contract of a stable sort determines [sort]: any arrangement of
    the collection that is ascending and keeps the order within each
    price is the one [sort] returns. *)
Theorem sort_unique (l l' : list Property) :
  pricesAreNumbers l -> Permutation l' l -> ascending l' ->
  samePriceOrder l' l -> l' = sort byAscendingPrice l.
Proof.
  intros Hn Hp Ha Hs.
  apply stable_sorted_unique
    with (R := fun p q : Property => le (price p) (price q) = true)
         (eqv := fun c p : Property => strictEq (price p) (price c)).
  - intros a b H1 H2. now apply le_antisym.
  - intros a Hin. apply strictEq_refl. apply (pricesAreNumbers_In l); auto.
    now apply (Permutation_in _ Hp).
  - intros a Hin. apply strictEq_refl. apply (pricesAreNumbers_In l); auto.
    now apply sort_In in Hin.
  - exact Ha.
  - now apply sort_ascending.
  - intros c. rewrite (Hs (price c)). symmetry. apply sort_ascending_stable.
Qed.


Lemma filteredProperties_ascending (ps : list Property) (f : FilterState.t) :
  FilterState.priceSort f = "Harga Terendah" ->
  filteredProperties ps f = filter (matches f) (sort byAscendingPrice ps).
Proof.
  intros H. rewrite filteredProperties_unfold. unfold sortedProperties.
  rewrite H. reflexivity.
Qed.

Lemma filteredProperties_descending (ps : list Property) (f : FilterState.t) :
  FilterState.priceSort f = "Harga Tertinggi" ->
  filteredProperties ps f = filter (matches f) (sort byDescendingPrice ps).
Proof.
  intros H. rewrite filteredProperties_unfold. unfold sortedProperties.
  rewrite H. reflexivity.
Qed.

Lemma filter_perm {A : Type} (f : A -> bool) (l l' : list A) :
  Permutation l l' -> Permutation (filter f l) (filter f l').
Proof.
  induction 1 as [|a l l' HP IH|a b l|l1 l2 l3 H1 IH1 H2 IH2]; simpl.
  - constructor.
  - destruct (f a); auto.
  - destruct (f a), (f b); auto using perm_swap.
  - etransitivity; eauto.
Qed.

(** C4, amended: when the price order is ascending ('Harga Terendah')
    and no price of the collection is NaN, the visible set is a
    rearrangement of the matching properties in ascending order of price
    that keeps properties of equal price in their order of the
    collection; sorting it again, or filtering and sorting it again,
    leaves it as it is.  The same holds with descending order for
    'Harga Tertinggi'.  With 'Default' the visible set is the matching
    properties in the order of the collection.  A collection with prices
    100, 50, 75 in ascending order shows them as 50, 75, 100. *)
Theorem price_sort_stable_idempotent :
  (forall (ps : list Property) (f : FilterState.t),
     FilterState.priceSort f = "Harga Terendah" -> pricesAreNumbers ps ->
     Permutation (filteredProperties ps f) (filter (matches f) ps)
     /\ ascending (filteredProperties ps f)
     /\ samePriceOrder (filteredProperties ps f) (filter (matches f) ps)
     /\ sortedProperties (filteredProperties ps f) f = filteredProperties ps f
     /\ filteredProperties (filteredProperties ps f) f = filteredProperties ps f)
  /\ (forall (ps : list Property) (f : FilterState.t),
     FilterState.priceSort f = "Harga Tertinggi" -> pricesAreNumbers ps ->
     Permutation (filteredProperties ps f) (filter (matches f) ps)
     /\ descending (filteredProperties ps f)
     /\ samePriceOrder (filteredProperties ps f) (filter (matches f) ps)
     /\ sortedProperties (filteredProperties ps f) f = filteredProperties ps f
     /\ filteredProperties (filteredProperties ps f) f = filteredProperties ps f)
  /\ (forall (ps : list Property) (f : FilterState.t),
     pricesAreNumbers ps ->
     sortedProperties (sortedProperties ps f) f = sortedProperties ps f)
  /\ (forall (ps : list Property) (f : FilterState.t),
     FilterState.priceSort f = "Default" ->
     filteredProperties ps f = filter (matches f) ps)
  /\ (forall (a b c : Property) (f : FilterState.t),
     price a = ofZ 100 -> price b = ofZ 50 -> price c = ofZ 75 ->
     FilterState.priceSort f = "Harga Terendah" ->
     sortedProperties [a; b; c] f = [b; c; a]
     /\ filteredProperties [a; b; c] f = filter (matches f) [b; c; a])
  /\ List.map (fun p : Property => price p)
       (filteredProperties
          [sampleProperty "1" "Rumah A" 100 90 120;
           sampleProperty "2" "Rumah B" 50 150 200;
           sampleProperty "3" "Rumah C" 75 60 80]
          (withPriceSort "Harga Terendah"))
     = [ofZ 50; ofZ 75; ofZ 100].
Proof.
  split; [|split; [|split; [|split; [|split]]]].
  - intros ps f Hf Hn. rewrite (filteredProperties_ascending _ _ Hf).
    assert (Ha : ascending (filter (matches f) (sort byAscendingPrice ps)))
      by (apply StronglySorted_filter; now apply sort_ascending).
    assert (Hx : sort byAscendingPrice (filter (matches f) (sort byAscendingPrice ps))
                 = filter (matches f) (sort byAscendingPrice ps))
      by now apply sort_ascending_fixed.
    repeat split.
    + apply filter_perm, sort_perm.
    + exact Ha.
    + intros v. rewrite filter_comm, (sort_ascending_stable ps v).
      apply filter_comm.
    + unfold sortedProperties. rewrite Hf. exact Hx.
    + rewrite (filteredProperties_ascending _ _ Hf), Hx. apply filter_idem.
  - intros ps f Hf Hn. rewrite (filteredProperties_descending _ _ Hf).
    assert (Ha : descending (filter (matches f) (sort byDescendingPrice ps)))
      by (apply StronglySorted_filter; now apply sort_descending).
    assert (Hx : sort byDescendingPrice (filter (matches f) (sort byDescendingPrice ps))
                 = filter (matches f) (sort byDescendingPrice ps))
      by now apply sort_descending_fixed.
    repeat split.
    + apply filter_perm, sort_perm.
    + exact Ha.
    + intros v. rewrite filter_comm, (sort_descending_stable ps v).
      apply filter_comm.
    + unfold sortedProperties. rewrite Hf. exact Hx.
    + rewrite (filteredProperties_descending _ _ Hf), Hx. apply filter_idem.
  - exact sortedProperties_idempotent.
  - intros ps f Hf. rewrite filteredProperties_unfold. unfold sortedProperties.
    rewrite Hf. reflexivity.
  - intros a b c f Ha Hb Hc Hf.
    assert (E : sortedProperties [a; b; c] f = [b; c; a]).
    { unfold sortedProperties. rewrite Hf.
      change (sort byAscendingPrice [a; b; c] = [b; c; a]).
      cbn [sort]. change (insert byAscendingPrice c []) with [c].
      rewrite (insert_cons byAscendingPrice b c), after_ascending, Hb, Hc.
      change (gt (ofZ 50) (ofZ 75)) with false. cbv iota.
      rewrite (insert_cons byAscendingPrice a b), after_ascending, Ha, Hb.
      change (gt (ofZ 100) (ofZ 50)) with true. cbv iota.
      rewrite (insert_cons byAscendingPrice a c), after_ascending, Ha, Hc.
      reflexivity. }
    split; [exact E|]. rewrite filteredProperties_unfold, E. reflexivity.
  - reflexivity.
Qed.

Lemma price_sort_stable_idempotent_witness :
  let ps := [sampleProperty "1" "Rumah A" 100 90 120;
             sampleProperty "2" "Rumah B" 50 150 200;
             sampleProperty "3" "Rumah C" 50 60 80] in
  let f := withPriceSort "Harga Terendah" in
  FilterState.priceSort f = "Harga Terendah"
  /\ pricesAreNumbers ps
  /\ ascending (filteredProperties ps f)
  /\ List.map id (filteredProperties ps f) = ["2"; "3"; "1"].
Proof.
  cbv zeta.
  assert (Hn : pricesAreNumbers
                 [sampleProperty "1" "Rumah A" 100 90 120;
                  sampleProperty "2" "Rumah B" 50 150 200;
                  sampleProperty "3" "Rumah C" 50 60 80])
    by (repeat constructor; discriminate).
  split; [reflexivity|]. split; [exact Hn|]. split; [|reflexivity].
  exact (proj1 (proj2 (proj1 price_sort_stable_idempotent _
                         (withPriceSort "Harga Terendah") eq_refl Hn))).
Defined.

(** C4 as stated fails: with prices 50, NaN, 40, the NaN-priced property
    of another type and the type filter at 'Rumah', every comparison
    with the NaN price answers NaN, which the sort reads as "equal", so
    the sequence counts as ordered and the ascending sort leaves it as it
    is: the visible set shows 50 before 40.  Sorting and filtering that
    visible set again gives 40 before 50. *)
Lemma nan_price_breaks_price_order :
  ~ (forall (ps : list Property) (f : FilterState.t),
       FilterState.priceSort f = "Harga Terendah" ->
       ascending (filteredProperties ps f))
  /\ ~ (forall (ps : list Property) (f : FilterState.t),
         FilterState.priceSort f = "Harga Terendah" ->
         filteredProperties (filteredProperties ps f) f
         = filteredProperties ps f).
Proof.
  split; intros H.
  - specialize (H nanPriceCollection rumahAscending eq_refl).
    change (ascending [pricedProperty "1" "Rumah" (ofZ 50);
                       pricedProperty "3" "Rumah" (ofZ 40)]) in H.
    inversion H as [|a l _ F]; subst.
    inversion F as [|b l' C _]; subst. discriminate C.
  - specialize (H nanPriceCollection rumahAscending eq_refl).
    discriminate H.
Qed.

End PriceSort.

(** * Selection, view mode, filters and the floating card *)

Section StateFacts.

Lemma ViewMode_eqb_refl (m : ViewMode) : ViewMode_eqb m m = true.
Proof. now destruct m. Qed.

Lemma ViewMode_eqb_eq (a b : ViewMode) : ViewMode_eqb a b = true <-> a = b.
Proof. destruct a, b; simpl; split; congruence. Qed.

Lemma step_same_view (ev : Event) (st : State) :
  viewMode (handle ev st) = viewMode st -> step ev st = handle ev st.
Proof.
  intros H. unfold step, viewModeEffect. now rewrite H, ViewMode_eqb_refl.
Qed.

Lemma viewMode_setViewMode (mode : ViewMode) (st : State) :
  viewMode (onViewModeChange mode st) = mode.
Proof. now destruct mode. Qed.

(** Only the view toggle changes the view mode. *)
Lemma handle_viewMode (ev : Event) (st : State) :
  (forall mode, ev <> ViewModeChange mode) ->
  viewMode (handle ev st) = viewMode st.
Proof.
  intros H. destruct ev; try reflexivity.
  - now destruct (H mode).
  - now destruct domEvent.
  - now destruct latLng.
  - now destruct open.
Qed.

Lemma Array_includes_In (l : list string) (v : string) :
  Array_includes l v = true <-> In v l.
Proof.
  unfold Array_includes. rewrite existsb_exists. split.
  - intros (a & Ha & E). apply String.eqb_eq in E. now subst.
  - intros H. exists v. split; [exact H | apply String.eqb_refl].
Qed.

Lemma filter_absent (l : list string) (v : string) :
  ~ In v l -> filter (fun id => negb (String.eqb id v)) l = l.
Proof.
  intros H. apply filter_all_iff. apply Forall_forall. intros a Ha.
  destruct (String.eqb a v) eqn:E; [|reflexivity].
  apply String.eqb_eq in E. now subst.
Qed.

Lemma filter_removes (l : list string) (v : string) :
  ~ In v (filter (fun id => negb (String.eqb id v)) l).
Proof.
  intros H. apply filter_In in H as [_ H]. now rewrite String.eqb_refl in H.
Qed.

Lemma step_toggle (propertyId : string) (st : State) :
  selectedPropertyIds (step (SelectionChange propertyId) st) =
  if Array_includes (selectedPropertyIds st) propertyId
  then filter (fun id => negb (String.eqb id propertyId)) (selectedPropertyIds st)
  else (selectedPropertyIds st ++ [propertyId])%list.
Proof. rewrite step_same_view; reflexivity. Qed.

(** C3, amended: two toggles of an identifier that was absent give back
    the selection, contents and order; two toggles of an identifier that
    was present give the selection without it followed by it, so the
    members are the same but the identifier has moved to the end. *)
Theorem toggle_twice (propertyId : string) (st : State) :
  let twice :=
    selectedPropertyIds
      (step (SelectionChange propertyId)
         (step (SelectionChange propertyId) st)) in
  (~ In propertyId (selectedPropertyIds st) -> twice = selectedPropertyIds st)
  /\ (In propertyId (selectedPropertyIds st) ->
      twice = (filter (fun id => negb (String.eqb id propertyId))
                 (selectedPropertyIds st) ++ [propertyId])%list)
  /\ (forall id, In id twice <-> In id (selectedPropertyIds st)).
Proof.
  cbv zeta. rewrite !step_toggle.
  set (sel := selectedPropertyIds st).
  destruct (Array_includes sel propertyId) eqn:E.
  - apply Array_includes_In in E.
    assert (N : Array_includes
                  (filter (fun id => negb (String.eqb id propertyId)) sel)
                  propertyId = false).
    { destruct (Array_includes _ propertyId) eqn:E'; [|reflexivity].
      apply Array_includes_In in E'. now apply filter_removes in E'. }
    rewrite N. split; [tauto|]. split; [reflexivity|].
    intros id. rewrite in_app_iff, filter_In. simpl.
    destruct (String.eqb id propertyId) eqn:Ei.
    + apply String.eqb_eq in Ei. subst id. simpl. intuition congruence.
    + apply String.eqb_neq in Ei. simpl. intuition congruence.
  - assert (N : ~ In propertyId sel).
    { intros H. apply Array_includes_In in H. congruence. }
    assert (Y : Array_includes (sel ++ [propertyId])%list propertyId = true).
    { apply Array_includes_In, in_app_iff. right. now left. }
    rewrite Y.
    assert (F : filter (fun id => negb (String.eqb id propertyId))
                  (sel ++ [propertyId])%list = sel).
    { rewrite filter_app, (filter_absent _ _ N). simpl.
      rewrite String.eqb_refl. simpl. apply List.app_nil_r. }
    rewrite F. split; [reflexivity|]. split; [tauto|]. tauto.
Qed.

Lemma toggle_twice_witness :
  ~ In "3" (selectedPropertyIds
              (run [SelectionChange "1"; SelectionChange "2"] sampleState))
  /\ selectedPropertyIds
       (run [SelectionChange "1"; SelectionChange "2";
             SelectionChange "3"; SelectionChange "3"] sampleState)
     = selectedPropertyIds
         (run [SelectionChange "1"; SelectionChange "2"] sampleState).
Proof.
  assert (N : ~ In "3" (selectedPropertyIds
              (run [SelectionChange "1"; SelectionChange "2"] sampleState))).
  { simpl. intros [H | [H | []]]; discriminate H. }
  split; [exact N|].
  exact (proj1 (toggle_twice "3"
           (run [SelectionChange "1"; SelectionChange "2"] sampleState)) N).
Defined.

(** C3 as stated fails: with "1" and "2" selected in that order, two
    toggles of "1" leave "2" before "1". *)
Lemma toggle_twice_reorders :
  ~ (forall (propertyId : string) (st : State),
       selectedPropertyIds
         (step (SelectionChange propertyId)
            (step (SelectionChange propertyId) st))
       = selectedPropertyIds st).
Proof.
  intros H.
  specialize (H "1" (run [SelectionChange "1"; SelectionChange "2"] sampleState)).
  discriminate H.
Qed.

(** C5: a change of the view mode leaves the selection empty and no
    floating card, whatever the state before; the header's toggle to the
    other mode is such a change. *)
Theorem view_switch_clears (mode : ViewMode) (st : State) :
  viewMode st <> mode ->
  viewMode (step (ViewModeChange mode) st) = mode
  /\ selectedPropertyIds (step (ViewModeChange mode) st) = []
  /\ selectedPropertyForCard (step (ViewModeChange mode) st) = None
  /\ floatingCard (step (ViewModeChange mode) st) = None.
Proof.
  intros H. unfold step, viewModeEffect. cbn [handle].
  rewrite viewMode_setViewMode.
  destruct (ViewMode_eqb (viewMode st) mode) eqn:E.
  - apply ViewMode_eqb_eq in E. contradiction.
  - repeat split. now destruct mode.
Qed.

Lemma view_switch_clears_witness :
  let st := run [SelectionChange "1"; SelectionChange "2"] sampleState in
  viewMode st <> view_map
  /\ selectedPropertyIds st = ["1"; "2"]
  /\ selectedPropertyIds (step (ViewModeChange view_map) st) = []
  /\ floatingCard (step (ViewModeChange view_map) st) = None.
Proof.
  cbv zeta.
  assert (N : viewMode (run [SelectionChange "1"; SelectionChange "2"] sampleState)
              <> view_map) by discriminate.
  split; [exact N|]. split; [reflexivity|].
  pose proof (view_switch_clears view_map _ N) as (_ & H1 & _ & H2).
  split; [exact H1 | exact H2].
Defined.

(** Every interaction after which the view mode differs clears both. *)
Lemma view_change_clears (ev : Event) (st : State) :
  viewMode (step ev st) <> viewMode st ->
  selectedPropertyIds (step ev st) = []
  /\ selectedPropertyForCard (step ev st) = None.
Proof.
  unfold step, viewModeEffect.
  destruct (ViewMode_eqb (viewMode st) (viewMode (handle ev st))) eqn:E.
  - apply ViewMode_eqb_eq in E. intros H. now rewrite <- E in H.
  - intros _. split; reflexivity.
Qed.

(** C6: a filter change leaves the selection as it is, identifiers and
    order; this includes states in which a selected property leaves the
    visible set. *)
Theorem filter_change_keeps_selection :
  (forall (newFilters : FilterState.partial) (st : State),
     selectedPropertyIds (step (FilterChange newFilters) st)
     = selectedPropertyIds st)
  /\ (exists (newFilters : FilterState.partial) (st : State) (p : Property),
        In p (visible st)
        /\ In (id p) (selectedPropertyIds st)
        /\ ~ In p (visible (step (FilterChange newFilters) st))
        /\ In (id p) (selectedPropertyIds (step (FilterChange newFilters) st))).
Proof.
  split.
  - intros newFilters st. rewrite step_same_view; reflexivity.
  - exists {| FilterState.searchTerm' := None;
              FilterState.propertyType' := None;
              FilterState.priceSort' := None;
              FilterState.buildingArea' := Some "100+";
              FilterState.landArea' := None |},
           (run [SelectionChange "1"] sampleState),
           (sampleProperty "1" "Rumah A" 100 90 120).
    repeat split.
    + left. reflexivity.
    + left. reflexivity.
    + intros [H | []]. discriminate H.
    + left. reflexivity.
Qed.

(** C8: a marker interaction whose DOM event is not a mouse event stores
    no position, and the floating card of the clicked property is
    rendered with the fixed bottom-left anchor. *)
Theorem marker_click_without_pointer (property : Property) (vp : Viewport)
    (st : State) :
  cardPosition (step (MarkerClick property OtherEvent vp) st) = None
  /\ selectedPropertyForCard (step (MarkerClick property OtherEvent vp) st)
     = Some property
  /\ floatingCard (step (MarkerClick property OtherEvent vp) st)
     = Some (property, BottomLeft "1rem" "1rem").
Proof. rewrite step_same_view; repeat split. Qed.

End StateFacts.

(** * Placement of the floating card *)

Section CardPlacement.

(** C7, amended: the position computed from a mouse event keeps the card
    (384 wide, 16 of padding) from passing the right edge and keeps its
    top at or below the header band plus padding, for every click and
    every viewport.  The card (300 high, 16 of padding) stays above the
    bottom edge exactly when the viewport is high enough for header,
    padding and card together (headerHeight + 332 at most innerHeight);
    in a 1000x800 viewport with a header of at most 468 the whole card is
    inside the viewport, and a click near the bottom-right corner is
    clamped to (600, 484). *)
Theorem popup_position_bounds (property : Property) (clientX clientY : Z)
    (vp : Viewport) (st : State) :
  exists pos : Position,
    cardPosition (step (MarkerClick property (MouseEvent clientX clientY) vp) st)
    = Some pos
    /\ x pos + 384 <= innerWidth vp - 16
    /\ headerHeight vp + 16 <= y pos
    /\ (y pos + 300 <= innerHeight vp - 16
        <-> headerHeight vp + 16 + 300 <= innerHeight vp - 16)
    /\ (innerWidth vp = 1000 -> innerHeight vp = 800 ->
        0 <= headerHeight vp <= 468 ->
        0 <= x pos /\ x pos + 384 <= 1000 /\ 0 <= y pos /\ y pos + 300 <= 800)
    /\ (innerWidth vp = 1000 -> innerHeight vp = 800 ->
        0 <= headerHeight vp <= 468 -> 584 < clientX -> 468 < clientY ->
        pos = {| x := 600; y := 484 |}).
Proof.
  rewrite step_same_view by reflexivity.
  cbn [handle handleMarkerClick].
  fold (headerHeight vp).
  cbv zeta. cbn [cardPosition setCardPosition].
  eexists. split; [reflexivity|]. cbn [x y].
  destruct (clientX + 16 <? 16) eqn:E1;
    [apply Z.ltb_lt in E1 | apply Z.ltb_ge in E1].
  all: match goal with
       | |- context [?a + 384 >? ?b] =>
           destruct (a + 384 >? b) eqn:E2;
           [apply Z.gtb_lt in E2 | rewrite Z.gtb_ltb in E2; apply Z.ltb_ge in E2]
       end.
  all: match goal with
       | |- context [?a + 300 >? ?b] =>
           destruct (a + 300 >? b) eqn:E3;
           [apply Z.gtb_lt in E3 | rewrite Z.gtb_ltb in E3; apply Z.ltb_ge in E3]
       end.
  all: match goal with
       | |- context [?a <? ?h + 16] =>
           destruct (a <? h + 16) eqn:E4;
           [apply Z.ltb_lt in E4 | apply Z.ltb_ge in E4]
       end.
  all: repeat split; intros; try lia.
  all: f_equal; lia.
Qed.

Lemma popup_position_bounds_witness :
  cardPosition
    (step (MarkerClick (sampleProperty "1" "Rumah A" 100 90 120)
             (MouseEvent 990 790)
             {| headerOffsetHeight := Some 64;
                innerWidth := 1000; innerHeight := 800 |})
       sampleState)
  = Some {| x := 600; y := 484 |}.
Proof.
  destruct (popup_position_bounds (sampleProperty "1" "Rumah A" 100 90 120)
              990 790
              {| headerOffsetHeight := Some 64;
                 innerWidth := 1000; innerHeight := 800 |}
              sampleState) as (pos & E & _ & _ & _ & _ & C).
  rewrite E. f_equal. apply C; cbn; lia.
Defined.

(** C7 as stated fails: in a viewport 640 wide and 360 high with a header
    of 64, the card is put at the header band and ends below the bottom
    edge. *)
Lemma popup_overflows_short_viewport :
  ~ (forall (property : Property) (clientX clientY : Z) (vp : Viewport)
            (st : State),
       exists pos : Position,
         cardPosition
           (step (MarkerClick property (MouseEvent clientX clientY) vp) st)
         = Some pos
         /\ x pos + 384 <= innerWidth vp - 16
         /\ y pos + 300 <= innerHeight vp - 16
         /\ headerHeight vp + 16 <= y pos).
Proof.
  intros H.
  destruct (H (sampleProperty "1" "Rumah A" 100 90 120) 600 340
              {| headerOffsetHeight := Some 64;
                 innerWidth := 640; innerHeight := 360 |}
              sampleState) as (pos & E & _ & Hb & _).
  injection E as <-. cbn in Hb. lia.
Qed.

End CardPlacement.

(** * The add-property workflow *)

Section AddProperty.

Lemma toString_inj (a b : nat) : toString a = toString b -> a = b.
Proof.
  unfold toString. intros H. apply Unsigned.to_uint_inj.
  pose proof (NilEmpty.usu (Nat.to_uint a)) as Ha.
  pose proof (NilEmpty.usu (Nat.to_uint b)) as Hb.
  rewrite H in Ha. congruence.
Qed.

Lemma idsBelowNext_fresh (ps : list Property) :
  idsBelowNext ps ->
  ~ In (toString (List.length ps + 100)) (List.map id ps).
Proof.
  intros H Hin. apply in_map_iff in Hin as (p & E & Hp).
  pose proof (H p _ Hp E). lia.
Qed.

(** The condition is kept by every addition, so a collection that starts
    with it never receives a duplicate identifier. *)
Lemma idsBelowNext_handleAddProperty (d : PropertyData) (st : State) :
  idsBelowNext (properties st) ->
  idsBelowNext (properties (step (FormSubmit d) st)).
Proof.
  intros H. rewrite step_same_view by reflexivity.
  cbn [handle handleAddProperty properties setNewPropertyCoords
       setIsAddDrawerOpen setProperties].
  intros p k Hp E. rewrite length_app. simpl List.length.
  apply in_app_iff in Hp as [Hp | [<- | []]].
  - pose proof (H p k Hp E). lia.
  - cbn [id] in E. apply toString_inj in E. lia.
Qed.

(** C9, amended: after a background click at [c], submitting the form
    appends exactly one property, made of the form's payload with the
    captured coordinates and the identifier (length + 100).toString(),
    after the existing entries, which stay as they are, and closes the
    drawer; the identifier differs from every existing one when no
    existing identifier is the numeral of a number at or above it.
    Dismissing the drawer instead drops the captured coordinates and
    leaves the collection as it is. *)
Theorem add_property_workflow (c : LatLng) (entered : PropertyData) (st : State) :
  let pending := step (MapClick (Some c)) st in
  let submitted := step (FormSubmit (formPayload entered c)) pending in
  let dismissed := step (DrawerOpenChange false) pending in
  let cancelled := step FormCancel pending in
  (isAddDrawerOpen pending = true
   /\ newPropertyCoords pending = Some c
   /\ properties pending = properties st)
  /\ (properties submitted
      = (properties st ++ [newProperty st (formPayload entered c)])%list
      /\ coordinates (newProperty st (formPayload entered c)) = c
      /\ id (newProperty st (formPayload entered c))
         = toString (List.length (properties st) + 100)
      /\ isAddDrawerOpen submitted = false
      /\ newPropertyCoords submitted = None)
  /\ (idsBelowNext (properties st) ->
      ~ In (id (newProperty st (formPayload entered c)))
           (List.map id (properties st)))
  /\ (properties dismissed = properties st
      /\ newPropertyCoords dismissed = None
      /\ isAddDrawerOpen dismissed = false)
  /\ (properties cancelled = properties st
      /\ newPropertyCoords cancelled = None
      /\ isAddDrawerOpen cancelled = false).
Proof.
  cbv zeta. rewrite !step_same_view by reflexivity.
  split; [repeat split|]. split; [repeat split|].
  split; [apply idsBelowNext_fresh|]. split; repeat split.
Qed.

Lemma add_property_workflow_witness :
  idsBelowNext (properties sampleState)
  /\ List.map id
       (properties
          (run [MapClick (Some {| lat := ofZ 1; lng := ofZ 2 |});
                FormSubmit (formPayload (sampleData "X" 10 20 30)
                              {| lat := ofZ 1; lng := ofZ 2 |})]
             sampleState))
     = ["1"; "2"; "3"; "103"]
  /\ ~ In (id (newProperty sampleState
                 (formPayload (sampleData "X" 10 20 30)
                    {| lat := ofZ 1; lng := ofZ 2 |})))
          (List.map id (properties sampleState)).
Proof.
  assert (B : idsBelowNext (properties sampleState)).
  { intros p k [<- | [<- | [<- | []]]] E;
      [change (toString 1 = toString k) in E
      |change (toString 2 = toString k) in E
      |change (toString 3 = toString k) in E];
      apply toString_inj in E; subst k; simpl; lia. }
  split; [exact B|]. split; [reflexivity|].
  exact (proj1 (proj2 (proj2
    (add_property_workflow {| lat := ofZ 1; lng := ofZ 2 |}
       (sampleData "X" 10 20 30) sampleState))) B).
Defined.

(** C9 as stated fails: with one property whose identifier is "101", the
    synthesized identifier is "101" again. *)
Lemma synthesized_id_collides :
  ~ (forall (d : PropertyData) (st : State),
       NoDup (List.map id (properties st)) ->
       NoDup (List.map id (properties (step (FormSubmit d) st)))).
Proof.
  intros H.
  specialize (H (sampleData "X" 10 20 30)
                (initialState [sampleProperty "101" "Rumah A" 100 90 120] None)).
  assert (N : NoDup ["101"]) by (constructor; [intros [] | constructor]).
  specialize (H N). inversion H as [|a l Hin _]. apply Hin. now left.
Qed.

End AddProperty.

(** * Further properties of the selection, the collection and the drawer *)

Section SelectionFacts.

Lemma step_effect (ev : Event) (st : State) :
  (viewMode (handle ev st) = viewMode st /\ step ev st = handle ev st)
  \/ (viewMode (handle ev st) <> viewMode st
      /\ step ev st
         = setSelectedPropertyForCard None
             (setSelectedPropertyIds [] (handle ev st))).
Proof.
  unfold step, viewModeEffect.
  destruct (ViewMode_eqb (viewMode st) (viewMode (handle ev st))) eqn:E.
  - left. apply ViewMode_eqb_eq in E. now split.
  - right. split; [|reflexivity]. intros H. rewrite H in E.
    now rewrite ViewMode_eqb_refl in E.
Qed.

Lemma step_other (ev : Event) (st : State) :
  (forall mode, ev <> ViewModeChange mode) -> step ev st = handle ev st.
Proof. intros H. apply step_same_view. now apply handle_viewMode. Qed.

(** X1: One toggle flips the membership of its identifier and of no other,
    and leaves the other identifiers in the order they had. *)
Theorem toggle_flips_one (propertyId : string) (st : State) :
  (In propertyId (selectedPropertyIds (step (SelectionChange propertyId) st))
   <-> ~ In propertyId (selectedPropertyIds st))
  /\ (forall other : string,
        other <> propertyId ->
        (In other (selectedPropertyIds (step (SelectionChange propertyId) st))
         <-> In other (selectedPropertyIds st)))
  /\ filter (fun i => negb (String.eqb i propertyId))
       (selectedPropertyIds (step (SelectionChange propertyId) st))
     = filter (fun i => negb (String.eqb i propertyId)) (selectedPropertyIds st).
Proof.
  rewrite step_toggle. set (sel := selectedPropertyIds st).
  destruct (Array_includes sel propertyId) eqn:E.
  - apply Array_includes_In in E. split; [|split].
    + split; [intros H; now apply filter_removes in H | tauto].
    + intros other Ho. rewrite filter_In.
      apply String.eqb_neq in Ho. rewrite Ho. simpl. tauto.
    + apply filter_idem.
  - assert (N : ~ In propertyId sel).
    { intros H. apply Array_includes_In in H. congruence. }
    split; [|split].
    + rewrite in_app_iff. simpl. tauto.
    + intros other Ho. rewrite in_app_iff. simpl. intuition congruence.
    + rewrite filter_app. simpl. rewrite String.eqb_refl. simpl.
      apply List.app_nil_r.
Qed.

(** X2: No interaction puts an identifier into the selection twice. *)
Theorem selection_stays_duplicate_free (ev : Event) (st : State) :
  NoDup (selectedPropertyIds st) ->
  NoDup (selectedPropertyIds (step ev st)).
Proof.
  intros H. destruct (step_effect ev st) as [[_ ->] | [_ ->]]; [|constructor].
  destruct ev; try exact H.
  - rewrite <- (step_same_view (SelectionChange propertyId) st eq_refl).
    rewrite step_toggle.
    destruct (Array_includes (selectedPropertyIds st) propertyId) eqn:E.
    + now apply NoDup_filter.
    + apply NoDup_app; [exact H | repeat constructor; intros [] |].
      intros a Ha [<- | []]. apply Array_includes_In in Ha. congruence.
  - now destruct domEvent.
  - now destruct latLng.
  - now destruct open.
  - constructor.
Qed.

Lemma selection_stays_duplicate_free_witness :
  NoDup (selectedPropertyIds (run [SelectionChange "1"; SelectionChange "2"] sampleState))
  /\ NoDup (selectedPropertyIds
              (run [SelectionChange "1"; SelectionChange "2"; SelectionChange "3"]
                 sampleState)).
Proof.
  assert (N : NoDup (selectedPropertyIds
                       (run [SelectionChange "1"; SelectionChange "2"] sampleState))).
  { repeat constructor; simpl; intuition discriminate. }
  split; [exact N|].
  exact (selection_stays_duplicate_free (SelectionChange "3") _ N).
Defined.

End SelectionFacts.

Section PageInvariant.

Lemma viewMode_handle_other (ev : Event) (st : State) :
  (forall mode, ev <> ViewModeChange mode) ->
  viewMode (step ev st) = viewMode st.
Proof.
  intros H. rewrite step_other by exact H. now apply handle_viewMode.
Qed.

Lemma pageInvariant_step (ev : Event) (st : State) :
  wired ev st -> pageInvariant st -> pageInvariant (step ev st).
Proof.
  intros W (Imap & Ilist & Iids).
  destruct (step_effect ev st) as [[Same E] | [_ E]]; rewrite E; clear E.
  2:{ repeat split; try reflexivity. intros i []. }
  assert (Keep : forall st' : State,
            viewMode st' = viewMode st ->
            selectedPropertyIds st' = selectedPropertyIds st ->
            (forall p, In p (properties st) -> In p (properties st')) ->
            (selectedPropertyForCard st' = selectedPropertyForCard st
             \/ selectedPropertyForCard st' = None
             \/ viewMode st = view_map) ->
            pageInvariant st').
  { intros st' Hv Hs Hp Hc. split; [|split].
    - rewrite Hv, Hs. exact Imap.
    - rewrite Hv. intros Hl. destruct Hc as [-> | [-> | Hm]]; auto.
      rewrite Hm in Hl. discriminate Hl.
    - rewrite Hs. intros i Hi. destruct (Iids i Hi) as (p & Hp' & Ep).
      exists p. split; [now apply Hp | exact Ep]. }
  destruct ev; cbn [handle].
  - apply Keep; auto.
  - (* SelectionChange *)
    destruct W as (Wl & p & Wp & Wi).
    split; [|split].
    + intros Hm. change (viewMode st = view_map) in Hm.
      rewrite Wl in Hm. discriminate Hm.
    + intros _. now apply Ilist.
    + intros i Hi.
      change (In i (if Array_includes (selectedPropertyIds st) propertyId
                    then filter (fun id => negb (String.eqb id propertyId))
                           (selectedPropertyIds st)
                    else (selectedPropertyIds st ++ [propertyId])%list)) in Hi.
      change (exists q : Property, In q (properties st) /\ id q = i).
      destruct (Array_includes (selectedPropertyIds st) propertyId).
      * apply filter_In in Hi as [Hi _]. now apply Iids.
      * apply in_app_iff in Hi as [Hi | [<- | []]]; [now apply Iids|].
        exists p. split; [|exact Wi].
        unfold visible in Wp. now apply In_filteredProperties in Wp.
  - apply Keep; auto.
  - destruct domEvent; apply Keep; auto.
  - destruct latLng; apply Keep; auto.
  - apply Keep; auto.
  - destruct open; apply Keep; auto.
  - apply Keep; auto. intros p Hp.
    cbn [handleAddProperty properties setNewPropertyCoords
         setIsAddDrawerOpen setProperties].
    apply in_app_iff. now left.
  - apply Keep; auto.
  - (* ClearSelection *)
    split; [|split].
    + intros _. reflexivity.
    + exact Ilist.
    + intros i [].
  - apply Keep; auto.
  - apply Keep; auto.
Qed.

Lemma pageInvariant_run (evs : list Event) (st : State) :
  wiredRun evs st -> pageInvariant st -> pageInvariant (run evs st).
Proof.
  revert st. induction evs as [|ev evs IH]; intros st W I; [exact I|].
  destruct W as [W1 W2]. apply (IH (step ev st) W2).
  now apply pageInvariant_step.
Qed.

Lemma pageInvariant_initial (ps : list Property) (view : option string) :
  pageInvariant (initialState ps view).
Proof. repeat split. intros i []. Qed.

(** X3: Whatever the user does on the page, a selected identifier belongs to
    a property of the collection, and nothing is selected while the map
    is shown. *)
Theorem selection_within_collection (ps : list Property)
    (view : option string) (evs : list Event) :
  wiredRun evs (initialState ps view) ->
  (forall i : string,
     In i (selectedPropertyIds (run evs (initialState ps view))) ->
     In i (List.map id (properties (run evs (initialState ps view)))))
  /\ (viewMode (run evs (initialState ps view)) = view_map ->
      selectedPropertyIds (run evs (initialState ps view)) = []).
Proof.
  intros W.
  destruct (pageInvariant_run evs _ W (pageInvariant_initial ps view))
    as (Imap & _ & Iids).
  split; [|exact Imap].
  intros i Hi. destruct (Iids i Hi) as (p & Hp & <-). now apply in_map.
Qed.

Lemma selection_within_collection_witness :
  wiredRun [SelectionChange "2"; FilterChange (buildingAreaPatch "0-100");
            SelectionChange "1"]
    sampleState
  /\ selectedPropertyIds
       (run [SelectionChange "2"; FilterChange (buildingAreaPatch "0-100");
             SelectionChange "1"] sampleState) = ["2"; "1"]
  /\ (forall i : string,
        In i (selectedPropertyIds
                (run [SelectionChange "2"; FilterChange (buildingAreaPatch "0-100");
                      SelectionChange "1"] sampleState)) ->
        In i ["1"; "2"; "3"]).
Proof.
  assert (W : wiredRun [SelectionChange "2"; FilterChange (buildingAreaPatch "0-100");
                        SelectionChange "1"] sampleState).
  { split; [split; [reflexivity|]|split; [exact I|split; [|exact I]]].
    - exists (sampleProperty "2" "Rumah B" 50 150 200).
      split; [right; left; reflexivity | reflexivity].
    - split; [reflexivity|].
      exists (sampleProperty "1" "Rumah A" 100 90 120).
      split; [left; reflexivity | reflexivity]. }
  split; [exact W|]. split; [reflexivity|].
  exact (proj1 (selection_within_collection _ (Some "list") _ W)).
Defined.

(** X4: Whatever the user does on the page, no floating card exists while the
    list is shown. *)
Theorem no_card_in_list_view (ps : list Property)
    (view : option string) (evs : list Event) :
  wiredRun evs (initialState ps view) ->
  viewMode (run evs (initialState ps view)) = view_list ->
  floatingCard (run evs (initialState ps view)) = None.
Proof.
  intros W Hl.
  destruct (pageInvariant_run evs _ W (pageInvariant_initial ps view))
    as (_ & Ilist & _).
  unfold floatingCard. now rewrite (Ilist Hl).
Qed.

Lemma no_card_in_list_view_witness :
  let evs :=
    [MarkerClick (sampleProperty "1" "Rumah A" 100 90 120) OtherEvent
       {| headerOffsetHeight := None; innerWidth := 1000; innerHeight := 800 |};
     ViewModeChange view_list] in
  wiredRun evs (initialState (properties sampleState) None)
  /\ viewMode (run evs (initialState (properties sampleState) None)) = view_list
  /\ floatingCard (run evs (initialState (properties sampleState) None)) = None.
Proof.
  cbv zeta.
  assert (W : wiredRun
    [MarkerClick (sampleProperty "1" "Rumah A" 100 90 120) OtherEvent
       {| headerOffsetHeight := None; innerWidth := 1000; innerHeight := 800 |};
     ViewModeChange view_list] (initialState (properties sampleState) None))
    by (repeat split).
  split; [exact W|]. split; [reflexivity|].
  exact (no_card_in_list_view _ None _ W eq_refl).
Defined.

End PageInvariant.

Section CollectionFacts.

Lemma properties_step (ev : Event) (st : State) :
  properties (step ev st) =
  match ev with
  | FormSubmit d => (properties st ++ [newProperty st d])%list
  | _ => properties st
  end.
Proof.
  destruct (step_effect ev st) as [[_ ->] | [_ ->]];
    destruct ev; try reflexivity;
    try (now destruct domEvent); try (now destruct latLng);
    try (now destruct open).
Qed.

Lemma seq_toString_cons (n k : nat) :
  toString n :: List.map toString (seq (S n) k)
  = List.map toString (seq n (S k)).
Proof. reflexivity. Qed.

Lemma NoDup_map_toString (l : list nat) :
  NoDup l -> NoDup (List.map toString l).
Proof.
  induction 1 as [|a l Ha Hl IH]; simpl; constructor; [|exact IH].
  intros Hin. apply in_map_iff in Hin as (b & E & Hb).
  apply toString_inj in E. now subst.
Qed.

(** X5: Over any sequence of interactions the collection only grows at its
    end: the entries it had stay where they were, and the entries added
    carry the numerals of consecutive numbers from (length + 100) on, so
    they differ from one another. *)
Theorem collection_append_only (evs : list Event) (st : State) :
  exists added : list Property,
    properties (run evs st) = (properties st ++ added)%list
    /\ List.map id added
       = List.map toString
           (seq (List.length (properties st) + 100) (List.length added))
    /\ NoDup (List.map id added).
Proof.
  assert (G : forall evs st, exists added : list Property,
            properties (run evs st) = (properties st ++ added)%list
            /\ List.map id added
               = List.map toString
                   (seq (List.length (properties st) + 100) (List.length added))).
  { clear. induction evs as [|ev evs IH]; intros st.
    - exists []. split; [symmetry; apply List.app_nil_r | reflexivity].
    - destruct (IH (step ev st)) as (added & Hp & Hi).
      change (run (ev :: evs) st) with (run evs (step ev st)).
      rewrite Hp. rewrite properties_step in *.
      destruct ev; try (exists added; split; [reflexivity | exact Hi]).
      exists (newProperty st newPropertyData :: added). split.
      + now rewrite <- app_assoc.
      + rewrite length_app in Hi. simpl List.length in Hi.
        replace (List.length (properties st) + 1 + 100)%nat
          with (S (List.length (properties st) + 100)) in Hi by lia.
        cbn [List.map List.length]. rewrite Hi.
        apply seq_toString_cons. }
  destruct (G evs st) as (added & Hp & Hi).
  exists added. split; [exact Hp|]. split; [exact Hi|].
  rewrite Hi. apply NoDup_map_toString, seq_NoDup.
Qed.

Lemma drawerInvariant_step (ev : Event) (st : State) :
  drawerInvariant st -> drawerInvariant (step ev st).
Proof.
  unfold drawerInvariant. intros I.
  destruct (step_effect ev st) as [[_ ->] | [_ ->]];
    destruct ev; try exact I;
    try (destruct domEvent; exact I);
    try (destruct latLng; [discriminate | exact I]);
    try (destruct open; [discriminate | reflexivity]);
    try reflexivity; try discriminate.
Qed.

(** X6: Captured coordinates never outlive the drawer: in every state reached
    from the first render, a closed drawer comes with no pending
    coordinates, so the form that the header button then opens starts
    without coordinates of an earlier click. *)
Theorem closed_drawer_has_no_coordinates (ps : list Property)
    (view : option string) (evs : list Event) :
  isAddDrawerOpen (run evs (initialState ps view)) = false ->
  newPropertyCoords (run evs (initialState ps view)) = None
  /\ isAddDrawerOpen (step AddPropertyClick (run evs (initialState ps view))) = true
  /\ newPropertyCoords (step AddPropertyClick (run evs (initialState ps view))) = None.
Proof.
  assert (G : forall evs st, drawerInvariant st -> drawerInvariant (run evs st)).
  { clear. induction evs as [|ev evs IH]; intros st I; [exact I|].
    apply (IH (step ev st)). now apply drawerInvariant_step. }
  intros Hc.
  assert (N : newPropertyCoords (run evs (initialState ps view)) = None).
  { apply (G evs (initialState ps view)); [intros _; reflexivity | exact Hc]. }
  split; [exact N|]. rewrite step_other by discriminate.
  split; [reflexivity | exact N].
Qed.

Lemma closed_drawer_has_no_coordinates_witness :
  let evs := [MapClick (Some {| lat := ofZ 1; lng := ofZ 2 |}); FormCancel] in
  isAddDrawerOpen (run evs (initialState (properties sampleState) None)) = false
  /\ newPropertyCoords
       (step AddPropertyClick (run evs (initialState (properties sampleState) None)))
     = None.
Proof.
  cbv zeta. split; [reflexivity|].
  exact (proj2 (proj2 (closed_drawer_has_no_coordinates _ None
           [MapClick (Some {| lat := ofZ 1; lng := ofZ 2 |}); FormCancel]
           eq_refl))).
Defined.

(** X7: With the 'Default' order a submitted property appears at the end of
    the visible set when it passes the filters and not at all otherwise;
    the rows that were shown stay as they were. *)
Theorem added_property_shows_last (d : PropertyData) (st : State) :
  FilterState.priceSort (filters st) = "Default" ->
  visible (step (FormSubmit d) st)
  = (visible st ++
     (if matches (filters st) (newProperty st d) then [newProperty st d] else []))%list.
Proof.
  intros Hd. unfold visible. rewrite properties_step.
  rewrite step_other by discriminate.
  change (filters (handle (FormSubmit d) st)) with (filters st).
  rewrite !filteredProperties_unfold. unfold sortedProperties. rewrite Hd.
  cbn [String.eqb Ascii.eqb Bool.eqb]. rewrite filter_app. reflexivity.
Qed.

Lemma added_property_shows_last_witness :
  FilterState.priceSort (filters sampleState) = "Default"
  /\ List.map id (visible (step (FormSubmit (sampleData "X" 10 20 30)) sampleState))
     = ["1"; "2"; "3"; "103"]
  /\ List.map id
       (visible (step (FormSubmit (sampleData "X" 10 (-20) 30)) sampleState))
     = ["1"; "2"; "3"].
Proof.
  split; [reflexivity|]. split.
  - rewrite (added_property_shows_last (sampleData "X" 10 20 30) sampleState eq_refl).
    reflexivity.
  - rewrite (added_property_shows_last (sampleData "X" 10 (-20) 30) sampleState eq_refl).
    reflexivity.
Defined.

End CollectionFacts.

Section CompareRoute.

Lemma join_cons (sep a b : string) (l : list string) :
  join sep (a :: b :: l) = a ++ sep ++ join sep (b :: l).
Proof. reflexivity. Qed.

Lemma split_join (l : list string) :
  l <> [] -> Forall (fun i => hasChar "," i = false) l ->
  split "," (join "," l) = l.
Proof.
  induction l as [|a l IH]; intros Hne Hc; [congruence|].
  inversion Hc as [|? ? Ha Hl]; subst.
  destruct l as [|b l].
  - cbn [join]. now apply split_nosep.
  - rewrite join_cons. change ("," ++ join "," (b :: l))
      with (String "," (join "," (b :: l))).
    rewrite split_app by exact Ha. f_equal. apply IH; [discriminate | exact Hl].
Qed.

(** X19: The compare button navigates exactly when something is selected, and
    the route then carries the selection: the text after "/compare?ids="
    splits at the commas into the selected identifiers, in their order,
    provided no identifier contains a comma. *)
Theorem compare_route_carries_selection (st : State) :
  Forall (fun i => hasChar "," i = false) (selectedPropertyIds st) ->
  (handleCompareClick st = None <-> selectedPropertyIds st = [])
  /\ (forall route : string,
        handleCompareClick st = Some route ->
        exists ids : string,
          stripPrefix "/compare?ids=" route = Some ids
          /\ split "," ids = selectedPropertyIds st).
Proof.
  intros Hc. unfold handleCompareClick.
  destruct (selectedPropertyIds st) as [|a l] eqn:E.
  - split; [split; reflexivity|]. intros route H. discriminate H.
  - cbn [List.length Nat.ltb Nat.leb]. split.
    + split; intros H; discriminate H.
    + intros route H. injection H as <-.
      exists (join "," (a :: l)). split; [reflexivity|].
      apply split_join; [discriminate | exact Hc].
Qed.

Lemma compare_route_carries_selection_witness :
  let st := run [SelectionChange "2"; SelectionChange "1"] sampleState in
  Forall (fun i => hasChar "," i = false) (selectedPropertyIds st)
  /\ handleCompareClick st = Some "/compare?ids=2,1"
  /\ split "," "2,1" = selectedPropertyIds st.
Proof.
  cbv zeta.
  assert (F : Forall (fun i => hasChar "," i = false)
                (selectedPropertyIds
                   (run [SelectionChange "2"; SelectionChange "1"] sampleState)))
    by (repeat constructor).
  split; [exact F|]. split; [reflexivity|].
  destruct (proj2 (compare_route_carries_selection _ F) _ eq_refl)
    as (ids & Hs & Hi).
  injection Hs as <-. exact Hi.
Defined.

End CompareRoute.

(** * Further properties of the visible set *)

Section VisibleSetMore.

Lemma filteredProperties_perm (ps : list Property) (f : FilterState.t) :
  Permutation (filteredProperties ps f) (filter (matches f) ps).
Proof.
  rewrite filteredProperties_unfold. apply filter_perm.
  unfold sortedProperties.
  destruct (String.eqb (FilterState.priceSort f) "Harga Terendah");
    [apply sort_perm|].
  destruct (String.eqb (FilterState.priceSort f) "Harga Tertinggi");
    [apply sort_perm | reflexivity].
Qed.

Lemma filteredProperties_none (ps : list Property) (f : FilterState.t) :
  (forall p : Property, matches f p = false) -> filteredProperties ps f = [].
Proof.
  intros M. rewrite filteredProperties_unfold.
  induction (sortedProperties ps f) as [|a l IH]; [reflexivity|].
  simpl. now rewrite M.
Qed.

Lemma pricesAreNumbers_filter (g : Property -> bool) (ps : list Property) :
  pricesAreNumbers ps -> pricesAreNumbers (filter g ps).
Proof.
  unfold pricesAreNumbers. rewrite !Forall_forall. intros H p Hp.
  apply H. now apply filter_In in Hp.
Qed.

(** The descending counterpart of [sort_unique]. *)
Lemma sort_unique_descending (l l' : list Property) :
  pricesAreNumbers l -> Permutation l' l -> descending l' ->
  samePriceOrder l' l -> l' = sort byDescendingPrice l.
Proof.
  intros Hn Hp Ha Hs.
  apply stable_sorted_unique
    with (R := fun p q : Property => ge (price p) (price q) = true)
         (eqv := fun c p : Property => strictEq (price p) (price c)).
  - intros a b H1 H2. exact (le_antisym (price b) (price a) H1 H2).
  - intros a Hin. apply strictEq_refl. apply (pricesAreNumbers_In l); auto.
    now apply (Permutation_in _ Hp).
  - intros a Hin. apply strictEq_refl. apply (pricesAreNumbers_In l); auto.
    now apply sort_In in Hin.
  - exact Ha.
  - now apply sort_descending.
  - intros c. rewrite (Hs (price c)). symmetry. apply sort_descending_stable.
Qed.

(** X8: Sorting and filtering commute: the visible set, which the code gets
    by sorting the whole collection and then filtering, is what sorting
    only the matching properties gives. *)
Theorem filter_commutes_with_sort (ps : list Property) (f : FilterState.t) :
  pricesAreNumbers ps ->
  filteredProperties ps f = sortedProperties (filter (matches f) ps) f.
Proof.
  intros Hn. rewrite filteredProperties_unfold. unfold sortedProperties.
  destruct (String.eqb (FilterState.priceSort f) "Harga Terendah").
  - change (filter (matches f) (sort byAscendingPrice ps)
            = sort byAscendingPrice (filter (matches f) ps)).
    apply (sort_unique (filter (matches f) ps)).
    + now apply pricesAreNumbers_filter.
    + apply filter_perm, sort_perm.
    + apply StronglySorted_filter. now apply sort_ascending.
    + intros v. rewrite filter_comm, (sort_ascending_stable ps v).
      apply filter_comm.
  - destruct (String.eqb (FilterState.priceSort f) "Harga Tertinggi");
      [|reflexivity].
    change (filter (matches f) (sort byDescendingPrice ps)
            = sort byDescendingPrice (filter (matches f) ps)).
    apply (sort_unique_descending (filter (matches f) ps)).
    + now apply pricesAreNumbers_filter.
    + apply filter_perm, sort_perm.
    + apply StronglySorted_filter. now apply sort_descending.
    + intros v. rewrite filter_comm, (sort_descending_stable ps v).
      apply filter_comm.
Qed.

Lemma filter_commutes_with_sort_witness :
  pricesAreNumbers (properties sampleState)
  /\ List.map id
       (filteredProperties (properties sampleState)
          (FilterState.spread (withPriceSort "Harga Terendah")
             (buildingAreaPatch "0-100")))
     = ["3"; "1"]
  /\ filteredProperties (properties sampleState)
       (FilterState.spread (withPriceSort "Harga Terendah")
          (buildingAreaPatch "0-100"))
     = sortedProperties
         (filter (matches (FilterState.spread (withPriceSort "Harga Terendah")
                             (buildingAreaPatch "0-100")))
            (properties sampleState))
         (FilterState.spread (withPriceSort "Harga Terendah")
            (buildingAreaPatch "0-100")).
Proof.
  assert (N : pricesAreNumbers (properties sampleState))
    by (repeat constructor; discriminate).
  split; [exact N|]. split; [reflexivity|].
  exact (filter_commutes_with_sort _ _ N).
Defined.

Lemma matches_priceSortPatch (f : FilterState.t) (order : string) (p : Property) :
  matches (FilterState.spread f (priceSortPatch order)) p = matches f p.
Proof. reflexivity. Qed.

(** X9: Choosing a price order only rearranges the visible set: the same
    properties, each as often as before. *)
Theorem price_order_only_rearranges (order : string) (st : State) :
  Permutation (visible (step (FilterChange (priceSortPatch order)) st))
              (visible st).
Proof.
  unfold visible. rewrite properties_step.
  rewrite step_other by discriminate.
  change (filters (handle (FilterChange (priceSortPatch order)) st))
    with (FilterState.spread (filters st) (priceSortPatch order)).
  rewrite filteredProperties_perm.
  rewrite (filter_ext _ _ (matches_priceSortPatch (filters st) order)).
  symmetry. apply filteredProperties_perm.
Qed.

Lemma NoDup_map_filter {A B : Type} (g : A -> B) (P : A -> bool) (l : list A) :
  NoDup (List.map g l) -> NoDup (List.map g (filter P l)).
Proof.
  induction l as [|a l IH]; simpl; intros H; [constructor|].
  inversion H as [|? ? Ha Hl]; subst.
  destruct (P a); [|now apply IH]. simpl. constructor; [|now apply IH].
  intros Hin. apply Ha. apply in_map_iff in Hin as (b & E & Hb).
  apply in_map_iff. exists b. split; [exact E|]. now apply filter_In in Hb.
Qed.

(** X10: The cards are rendered with [key={property.id}]: when the
    identifiers of the collection are distinct, so are the keys of the
    visible set, under every filter and order. *)
Theorem visible_keys_distinct (ps : list Property) (f : FilterState.t) :
  NoDup (List.map id ps) -> NoDup (List.map id (filteredProperties ps f)).
Proof.
  intros H.
  apply (Permutation_NoDup (l := List.map id (filter (matches f) ps))).
  - symmetry. apply Permutation_map, filteredProperties_perm.
  - now apply NoDup_map_filter.
Qed.

Lemma visible_keys_distinct_witness :
  NoDup (List.map id (properties sampleState))
  /\ NoDup (List.map id
              (filteredProperties (properties sampleState)
                 (withPriceSort "Harga Tertinggi"))).
Proof.
  assert (N : NoDup (List.map id (properties sampleState))).
  { repeat constructor; simpl; intuition discriminate. }
  split; [exact N|]. exact (visible_keys_distinct _ _ N).
Defined.

Lemma toLowerCase_empty (s t : string) :
  toLowerCase s = toLowerCase t -> String.eqb s "" = String.eqb t "".
Proof. destruct s, t; simpl; intros H; try reflexivity; discriminate H. Qed.

(** X11: The search does not see the case of the search term: two terms with
    the same lower-case form give the same visible set. *)
Theorem search_ignores_case (term1 term2 : string) (st : State) :
  toLowerCase term1 = toLowerCase term2 ->
  visible (step (FilterChange (searchTermPatch term1)) st)
  = visible (step (FilterChange (searchTermPatch term2)) st).
Proof.
  intros H. unfold visible. rewrite !properties_step.
  rewrite !step_other by discriminate.
  change (filters (handle (FilterChange (searchTermPatch term1)) st))
    with (FilterState.spread (filters st) (searchTermPatch term1)).
  change (filters (handle (FilterChange (searchTermPatch term2)) st))
    with (FilterState.spread (filters st) (searchTermPatch term2)).
  rewrite !filteredProperties_unfold.
  change (sortedProperties (properties st)
            (FilterState.spread (filters st) (searchTermPatch term1)))
    with (sortedProperties (properties st) (filters st)).
  change (sortedProperties (properties st)
            (FilterState.spread (filters st) (searchTermPatch term2)))
    with (sortedProperties (properties st) (filters st)).
  apply filter_ext. intros p. unfold matches.
  cbn [FilterState.spread FilterState.over searchTermPatch
       FilterState.searchTerm FilterState.propertyType
       FilterState.buildingArea FilterState.landArea
       FilterState.searchTerm' FilterState.propertyType'
       FilterState.buildingArea' FilterState.landArea'].
  now rewrite H, (toLowerCase_empty _ _ H).
Qed.

Lemma search_ignores_case_witness :
  toLowerCase "RUMAH b" = toLowerCase "rumah B"
  /\ List.map id (visible (step (FilterChange (searchTermPatch "RUMAH b")) sampleState))
     = ["2"]
  /\ visible (step (FilterChange (searchTermPatch "RUMAH b")) sampleState)
     = visible (step (FilterChange (searchTermPatch "rumah B")) sampleState).
Proof.
  split; [reflexivity|]. split; [reflexivity|].
  exact (search_ignores_case "RUMAH b" "rumah B" sampleState eq_refl).
Defined.

Lemma filter_filter_implies {A : Type} (g h : A -> bool) (l : list A) :
  (forall a, g a = true -> h a = true) ->
  filter g (filter h l) = filter g l.
Proof.
  intros H. induction l as [|a l IH]; [reflexivity|]. simpl.
  destruct (h a) eqn:Eh; simpl; rewrite IH; [reflexivity|].
  destruct (g a) eqn:Eg; [|reflexivity].
  rewrite (H a Eg) in Eh. discriminate Eh.
Qed.

(** X12: A search term or a type only narrows what the ranges let through:
    the visible set is the visible set with the search term emptied and
    the type at 'Semua', filtered once more, so the rows keep their
    order. *)
Theorem search_and_type_narrow (st : State) :
  visible st
  = filter (matches (filters st))
      (visible (step (FilterChange relaxPatch) st)).
Proof.
  unfold visible. rewrite properties_step.
  rewrite step_other by discriminate.
  change (filters (handle (FilterChange relaxPatch) st))
    with (FilterState.spread (filters st) relaxPatch).
  rewrite !filteredProperties_unfold.
  change (sortedProperties (properties st)
            (FilterState.spread (filters st) relaxPatch))
    with (sortedProperties (properties st) (filters st)).
  symmetry. apply filter_filter_implies. intros p. unfold matches.
  cbn [FilterState.spread FilterState.over relaxPatch
       FilterState.searchTerm FilterState.propertyType
       FilterState.buildingArea FilterState.landArea
       FilterState.searchTerm' FilterState.propertyType'
       FilterState.buildingArea' FilterState.landArea'].
  rewrite !andb_true_iff. cbn [String.eqb orb]. tauto.
Qed.

Lemma inRange_bounds (v : num) (r : num * num) :
  inRange v r = true -> gt (fst r) (snd r) = false.
Proof.
  unfold inRange. intros H. apply andb_prop in H as [H1 H2].
  apply le_not_gt. exact (le_trans (fst r) v (snd r) H1 H2).
Qed.

(** X13: A range whose lower bound exceeds its upper bound hides every
    property. *)
Theorem reversed_range_hides_everything (ps : list Property) (f : FilterState.t) :
  gt (fst (parseAreaRange (FilterState.buildingArea f)))
     (snd (parseAreaRange (FilterState.buildingArea f))) = true
  \/ gt (fst (parseAreaRange (FilterState.landArea f)))
        (snd (parseAreaRange (FilterState.landArea f))) = true ->
  filteredProperties ps f = [].
Proof.
  intros H. apply filteredProperties_none. intros p. unfold matches.
  destruct H as [H | H].
  - destruct (inRange (buildingArea p) _) eqn:E.
    + apply inRange_bounds in E. congruence.
    + now rewrite andb_false_r.
  - destruct (inRange (landArea p) _) eqn:E.
    + apply inRange_bounds in E. congruence.
    + now rewrite andb_false_r.
Qed.

Lemma reversed_range_hides_everything_witness :
  parseAreaRange "200-100" = (ofZ 200, ofZ 100)
  /\ filteredProperties (properties sampleState) (withBuildingArea "200-100") = [].
Proof.
  split; [reflexivity|].
  apply reversed_range_hides_everything. left. reflexivity.
Defined.

End VisibleSetMore.

(** * Further properties of the range parser *)

Section ParserMore.

Lemma parseAreaRange_onePart (range : string) :
  onePart range -> parseAreaRange range = (Number range, NaN).
Proof.
  intros (Hp & Hd & Hs & He). unfold parseAreaRange.
  apply String.eqb_neq in Hs, He. rewrite Hs, He. cbn [orb].
  rewrite includes_char, Hp, split_nosep by exact Hd. reflexivity.
Qed.

(** X14: A descriptor of a single number, such as '100', has no upper bound to
    compare with ([max] is undefined), and hides every property. *)
Theorem single_number_hides_everything (ps : list Property) (f : FilterState.t) :
  onePart (FilterState.buildingArea f) \/ onePart (FilterState.landArea f) ->
  filteredProperties ps f = [].
Proof.
  intros H. apply filteredProperties_none. intros p. unfold matches.
  destruct H as [H | H]; rewrite (parseAreaRange_onePart _ H).
  - rewrite (inRange_NaN _ (_, NaN)) by (right; reflexivity).
    now rewrite andb_false_r.
  - rewrite (inRange_NaN _ (_, NaN)) by (right; reflexivity).
    now rewrite andb_false_r.
Qed.

Lemma single_number_hides_everything_witness :
  onePart (FilterState.buildingArea (withBuildingArea "100"))
  /\ filteredProperties (properties sampleState) (withBuildingArea "100") = [].
Proof.
  assert (O : onePart (FilterState.buildingArea (withBuildingArea "100")))
    by (repeat split; discriminate).
  split; [exact O|].
  apply single_number_hides_everything. left. exact O.
Defined.

(** X15: Only the first two parts between hyphens count: what follows a
    second hyphen is dropped, and a descriptor that starts with a hyphen
    has an empty first part, which reads as 0. *)
Theorem only_two_parts_count (a b c : string) :
  hasChar "-" a = false -> hasChar "-" b = false ->
  hasChar "+" a = false -> hasChar "+" b = false -> hasChar "+" c = false ->
  parseAreaRange (a ++ "-" ++ b ++ "-" ++ c) = (Number a, Number b)
  /\ (a = "" -> parseAreaRange ("-" ++ b ++ "-" ++ c) = (ofZ 0, Number b)).
Proof.
  intros Ha Hb Pa Pb Pc.
  assert (E : parseAreaRange (a ++ "-" ++ b ++ "-" ++ c) = (Number a, Number b)).
  { unfold parseAreaRange.
    assert (D : hasChar "-" (a ++ "-" ++ b ++ "-" ++ c) = true).
    { rewrite hasChar_app. cbn [append hasChar]. rewrite Ascii.eqb_refl.
      apply orb_true_r. }
    destruct (String.eqb (a ++ "-" ++ b ++ "-" ++ c) "Semua") eqn:E1.
    { apply String.eqb_eq in E1. rewrite E1 in D. discriminate D. }
    destruct (String.eqb (a ++ "-" ++ b ++ "-" ++ c) "") eqn:E2.
    { apply String.eqb_eq in E2. rewrite E2 in D. discriminate D. }
    cbn [orb]. rewrite includes_char, hasChar_app. cbn [append hasChar].
    rewrite hasChar_app. cbn [append hasChar]. rewrite Pa, Pb, Pc.
    change (Ascii.eqb "-" "+") with false. cbn [orb].
    rewrite split_app by exact Ha. rewrite split_app by exact Hb.
    reflexivity. }
  split; [exact E|]. intros ->. exact E.
Qed.

Lemma only_two_parts_count_witness :
  parseAreaRange "10-20-30" = (ofZ 10, ofZ 20)
  /\ parseAreaRange "-5-10" = (ofZ 0, ofZ 5).
Proof.
  split.
  - exact (proj1 (only_two_parts_count "10" "20" "30"
                    eq_refl eq_refl eq_refl eq_refl eq_refl)).
  - exact (proj2 (only_two_parts_count "" "5" "10"
                    eq_refl eq_refl eq_refl eq_refl eq_refl) eq_refl).
Defined.

Lemma parseInt_numeral_then (d : Decimal.uint) (c : ascii) (rest : string) :
  d <> Decimal.Nil -> Z.abs (uintValue d 0) <= 2 ^ 53 ->
  isDecDigit c = false -> c <> "x"%char -> c <> "X"%char ->
  parseInt (NilEmpty.string_of_uint d ++ String c rest) = ofZ (uintValue d 0).
Proof.
  intros Hd Hb Hc Hx HX.
  assert (E : forall s, s = (NilEmpty.string_of_uint d ++ String c rest) ->
              parseInt s =
              match digits 10 s 0 0 with
              | (_, O, _) => NaN
              | (m, S _, _) => toDouble (inject_Z (1 * m))
              end).
  { intros s ->. destruct d as [|d|d|d|d|d|d|d|d|d|d]; try congruence;
      try reflexivity.
    destruct d; try reflexivity.
    destruct c as [[] [] [] [] [] [] [] []]; try reflexivity;
      congruence. }
  rewrite (E _ eq_refl), digits_numeral, digits_cons.
  unfold isDecDigit in Hc. destruct (digitValue 10 c); [discriminate Hc|].
  destruct d; try congruence; cbn [Decimal.nb_digits Nat.add];
    rewrite Z.mul_1_l; now apply toDouble_small.
Qed.

(** X16: A descriptor with a plus sign anywhere is read by its leading
    numeral alone: whatever follows the numeral, an upper bound included,
    is ignored, and the range has no upper bound. *)
Theorem plus_reads_leading_numeral (n : nat) (c : ascii) (rest : string) :
  Z.of_nat n <= 2 ^ 53 ->
  isDecDigit c = false -> c <> "x"%char -> c <> "X"%char ->
  hasChar "+" (String c rest) = true ->
  parseAreaRange (toString n ++ String c rest) = (ofZ (Z.of_nat n), PInf).
Proof.
  intros Hn Hc Hx HX Hp. unfold parseAreaRange, toString.
  rewrite numeral_not_sentinel by apply to_uint_nonnil.
  rewrite includes_char, hasChar_app, Hp, orb_true_r.
  rewrite parseInt_numeral_then; auto using to_uint_nonnil, numeral_bound.
  now rewrite uintValue_to_uint.
Qed.

Lemma plus_reads_leading_numeral_witness :
  parseAreaRange "50-100+" = (ofZ 50, PInf)
  /\ parseAreaRange "50 m2+" = (ofZ 50, PInf).
Proof.
  split.
  - apply (plus_reads_leading_numeral 50 "-" "100+");
      solve [vm_compute; discriminate | reflexivity | discriminate].
  - apply (plus_reads_leading_numeral 50 " " "m2+");
      solve [vm_compute; discriminate | reflexivity | discriminate].
Defined.

End ParserMore.

(** * Further properties of the card placement *)

Section CardPlacementMore.

Ltac split_clamps :=
  repeat match goal with
    | |- context [?a <? ?b] =>
        let E := fresh "E" in
        destruct (a <? b) eqn:E;
        [apply Z.ltb_lt in E | apply Z.ltb_ge in E]
    | |- context [?a >? ?b] =>
        let E := fresh "E" in
        destruct (a >? b) eqn:E;
        [apply Z.gtb_lt in E | rewrite Z.gtb_ltb in E; apply Z.ltb_ge in E]
    end.

(** X17: The left edge: the card starts inside the viewport exactly when the
    viewport is at least 400 wide, and keeps the padding of 16 on its left
    exactly when it is at least 416 wide; in a narrower viewport the
    card's left part is off screen, wherever the click was. *)
Theorem card_left_edge (property : Property) (clientX clientY : Z)
    (vp : Viewport) (st : State) :
  exists pos : Position,
    cardPosition (step (MarkerClick property (MouseEvent clientX clientY) vp) st)
    = Some pos
    /\ (0 <= x pos <-> 400 <= innerWidth vp)
    /\ (16 <= x pos <-> 416 <= innerWidth vp).
Proof.
  rewrite step_same_view by reflexivity.
  cbn [handle handleMarkerClick]. cbv zeta.
  cbn [cardPosition setCardPosition].
  eexists. split; [reflexivity|]. cbn [x y].
  split_clamps; lia.
Qed.

(** X18: When the card fits below and to the right of the pointer, it is put
    there, 16 away from the pointer in both directions. *)
Theorem card_opens_at_pointer (property : Property) (clientX clientY : Z)
    (vp : Viewport) (st : State) :
  0 <= clientX -> clientX + 16 + 384 <= innerWidth vp - 16 ->
  headerHeight vp <= clientY -> clientY + 16 + 300 <= innerHeight vp - 16 ->
  cardPosition (step (MarkerClick property (MouseEvent clientX clientY) vp) st)
  = Some {| x := clientX + 16; y := clientY + 16 |}.
Proof.
  intros H1 H2 H3 H4.
  rewrite step_same_view by reflexivity.
  cbn [handle handleMarkerClick]. fold (headerHeight vp). cbv zeta.
  cbn [cardPosition setCardPosition].
  rewrite !Z.gtb_ltb.
  rewrite (proj2 (Z.ltb_ge (clientX + 16) 16)) by lia.
  rewrite (proj2 (Z.ltb_ge (innerWidth vp - 16) (clientX + 16 + 384))) by lia.
  rewrite (proj2 (Z.ltb_ge (innerHeight vp - 16) (clientY + 16 + 300))) by lia.
  rewrite (proj2 (Z.ltb_ge (clientY + 16) (headerHeight vp + 16))) by lia.
  reflexivity.
Qed.

Lemma card_opens_at_pointer_witness :
  cardPosition
    (step (MarkerClick (sampleProperty "1" "Rumah A" 100 90 120)
             (MouseEvent 300 200)
             {| headerOffsetHeight := Some 64;
                innerWidth := 1000; innerHeight := 800 |})
       sampleState)
  = Some {| x := 316; y := 216 |}.
Proof.
  apply (card_opens_at_pointer (sampleProperty "1" "Rumah A" 100 90 120)
           300 200
           {| headerOffsetHeight := Some 64;
              innerWidth := 1000; innerHeight := 800 |} sampleState);
    cbn; lia.
Defined.

End CardPlacementMore.
